(** * The Hindsight artifact store: timestamp normalisation, search and summary

    A shallow embedding of the in-process core of
    [servers/Hindsight/hindsight_mcp_server.py]:

    - [_parse_hindsight_timestamp]  (the timestamp normaliser),
    - [search_analysis_results]     (the query engine),
    - [create_analysis_summary]     (the summariser),
    - [handle_call_tool]            (the tool boundary that absorbs exceptions),

    together with the part of the Python library these functions rest on:
    JSON values, truthiness, [int]/[float] arithmetic in binary64,
    [datetime.fromtimestamp], [str.lower], [str.count], [json.dumps], [str()]
    and the stable [sorted]/[list.sort].

    Python exceptions are explicit: a computation that may raise returns a
    [result]. *)

From Stdlib Require Import ZArith NArith Ascii String List Bool Lia.
From Stdlib Require Import Permutation Sorted.
From Stdlib Require Import Floats.SpecFloat.
From Stdlib Require Import Numbers.DecimalString Numbers.DecimalPos Numbers.DecimalZ.
Import ListNotations.

Open Scope string_scope.
Open Scope list_scope.
Open Scope Z_scope.

Set Warnings "-register-all".

(** ** Exceptions and fallible computations *)

Inductive exn : Type :=
| ValueError
| TypeError
| ParserError          (* dateutil.parser.ParserError, a ValueError *)
| OverflowError
| OSError
| AttributeError
| ZeroDivisionError.

Inductive result (A : Type) : Type :=
| Ok (a : A)
| Raise (e : exn).

Arguments Ok {A} a.
Arguments Raise {A} e.

Definition bind {A B : Type} (r : result A) (k : A -> result B) : result B :=
  match r with
  | Ok a => k a
  | Raise e => Raise e
  end.

Notation "x <- r ;; k" := (bind r (fun x => k))
  (at level 61, r at next level, right associativity).

(** ** Python values as [json.loads] produces them *)

Inductive pyval : Type :=
| PNone
| PBool (b : bool)
| PInt (z : Z)
| PFloat (f : spec_float)
| PStr (s : string)
| PList (l : list pyval)
| PDict (d : list (string * pyval)).

(** A [dict] keeps its insertion order, which [json.dumps] prints; keys are the
    [str] keys of a JSON object. *)
Definition dict : Type := list (string * pyval).

Fixpoint lookup (key : string) (d : dict) : option pyval :=
  match d with
  | [] => None
  | (k, v) :: rest => if String.eqb key k then Some v else lookup key rest
  end.

(** [key in d] *)
Definition contains_key (key : string) (d : dict) : bool :=
  match lookup key d with Some _ => true | None => false end.

(** [d.get(key)] and [d.get(key, default)] *)
Definition get (d : dict) (key : string) : pyval :=
  match lookup key d with Some v => v | None => PNone end.

Definition get_default (d : dict) (key : string) (default : pyval) : pyval :=
  match lookup key d with Some v => v | None => default end.

(** ** Binary64 floats and Python's mixed [int]/[float] arithmetic *)

Definition prec : Z := 53.
Definition emax : Z := 1024.

(** The float nearest to an integer (round half to even; an infinity when the
    integer is beyond the largest float). *)
Definition float_of_Z (z : Z) : spec_float := binary_normalize prec emax z 0 false.

Definition is_zero (f : spec_float) : bool :=
  match f with S754_zero _ => true | _ => false end.

(** [float(z)]: "int too large to convert to float" *)
Definition float_of_int (z : Z) : result spec_float :=
  match float_of_Z z with
  | S754_infinity _ => Raise OverflowError
  | f => Ok f
  end.

(** The order of an integer and a float is decided on their exact values. *)
Definition Z_compare_float (z : Z) (f : spec_float) : option comparison :=
  match f with
  | S754_nan => None
  | S754_infinity s => Some (if s then Gt else Lt)
  | S754_zero _ => Some (z ?= 0)
  | S754_finite s m e =>
      let v := if s then Z.neg m else Z.pos m in
      Some (if 0 <=? e then z ?= v * 2 ^ e else z * 2 ^ (- e) ?= v)
  end.

Inductive number : Type :=
| NInt (z : Z)
| NFloat (f : spec_float).

Definition number_compare (a b : number) : option comparison :=
  match a, b with
  | NInt x, NInt y => Some (x ?= y)
  | NInt x, NFloat g => Z_compare_float x g
  | NFloat f, NInt y => option_map CompOpp (Z_compare_float y f)
  | NFloat f, NFloat g => SFcompare f g
  end.

(** [a > b], [a < b], [a == b] on numbers; every comparison with a NaN is false *)
Definition py_gt (a b : number) : bool :=
  match number_compare a b with Some Gt => true | _ => false end.

Definition py_lt_num (a b : number) : bool :=
  match number_compare a b with Some Lt => true | _ => false end.

Definition py_eq_num (a b : number) : bool :=
  match number_compare a b with Some Eq => true | _ => false end.

Definition to_float (n : number) : result spec_float :=
  match n with
  | NInt z => float_of_int z
  | NFloat f => Ok f
  end.

(** [a / d] for a float [d]: true division, carried out in binary64 *)
Definition py_truediv (a : number) (d : spec_float) : result number :=
  f <- to_float a ;;
  if is_zero d then Raise ZeroDivisionError
  else Ok (NFloat (SFdiv prec emax f d)).

(** [a - k] for an [int] k: exact on integers, binary64 on a float *)
Definition py_sub (a : number) (k : Z) : result number :=
  match a with
  | NInt z => Ok (NInt (z - k))
  | NFloat f => g <- float_of_int k ;; Ok (NFloat (SFsub prec emax f g))
  end.

(** [isinstance(v, (int, float))]: [bool] is a subclass of [int] *)
Definition as_number (v : pyval) : option number :=
  match v with
  | PBool b => Some (NInt (Z.b2z b))
  | PInt z => Some (NInt z)
  | PFloat f => Some (NFloat f)
  | _ => None
  end.

(** Truth value of an object, as [if v:] and [or] test it *)
Definition truthy (v : pyval) : bool :=
  match v with
  | PNone => false
  | PBool b => b
  | PInt z => negb (z =? 0)
  | PFloat f => negb (is_zero f)
  | PStr s => negb (String.eqb s EmptyString)
  | PList l => match l with [] => false | _ => true end
  | PDict d => match d with [] => false | _ => true end
  end.

(** [a or b] *)
Definition py_or (a b : pyval) : pyval := if truthy a then a else b.

(** ** Calendar arithmetic and [datetime.fromtimestamp(_, tz=timezone.utc)]

    The conversion is the one of CPython on a platform whose [time_t] has 64
    bits: a timestamp beyond [time_t] is an OverflowError, one whose year
    [gmtime] cannot hold an OSError, one whose year [datetime] cannot hold a
    ValueError. *)

(** A timezone-aware UTC [datetime]: seconds since 1970-01-01T00:00:00Z and
    the microsecond within the second. *)
Record datetime : Type := mk_datetime { timet : Z; micro : Z }.

(** A [date] is the number of days since 1970-01-01 in the proleptic
    Gregorian calendar; dates are ordered as these numbers are. *)
Definition date : Type := Z.

(** Year, month and day of a day number. *)
Definition civil_from_days (days : Z) : Z * Z * Z :=
  let z := days + 719468 in
  let era := z / 146097 in
  let doe := z - era * 146097 in
  let yoe := (doe - doe / 1460 + doe / 36524 - doe / 146096) / 365 in
  let y := yoe + era * 400 in
  let doy := doe - (365 * yoe + yoe / 4 - yoe / 100) in
  let mp := (5 * doy + 2) / 153 in
  let d := doy - (153 * mp + 2) / 5 + 1 in
  let m := if mp <? 10 then mp + 3 else mp - 9 in
  (if m <=? 2 then y + 1 else y, m, d).

Definition days_from_civil (y m d : Z) : date :=
  let y' := if m <=? 2 then y - 1 else y in
  let era := y' / 400 in
  let yoe := y' - era * 400 in
  let mp := if 2 <? m then m - 3 else m + 9 in
  let doy := (153 * mp + 2) / 5 + d - 1 in
  let doe := yoe * 365 + yoe / 4 - yoe / 100 + doy in
  era * 146097 + doe - 719468.

(** [dt.date()] of a UTC datetime *)
Definition date_of (dt : datetime) : date := timet dt / 86400.

Definition year_of_date (d : date) : Z := fst (fst (civil_from_days d)).

Definition year_of (dt : datetime) : Z := year_of_date (date_of dt).

(** [gmtime] stores the year minus 1900 in a C [int] and fails beyond it
    (OSError); [datetime] itself accepts the years 1 to 9999 (ValueError). *)
Definition datetime_from_timet_and_us (t us : Z) : result datetime :=
  let y := year_of_date (t / 86400) in
  if (y - 1900 <? - 2 ^ 31) || (2 ^ 31 - 1 <? y - 1900) then Raise OSError
  else if (y <? 1) || (9999 <? y) then Raise ValueError
  else Ok (mk_datetime t us).

(** The integer nearest to a float, ties to the even one. *)
Definition round_half_even (f : spec_float) : Z :=
  match f with
  | S754_finite s m e =>
      let r :=
        if 0 <=? e then Z.pos m * 2 ^ e
        else
          let k := 2 ^ (- e) in
          let q := Z.pos m / k in
          let rem := Z.pos m mod k in
          match 2 * rem ?= k with
          | Lt => q
          | Gt => q + 1
          | Eq => if Z.even q then q else q + 1
          end in
      if s then - r else r
  | _ => 0
  end.

(** [modf]: the integral part (towards zero) of a finite float, and the
    fractional part, which is a float again. *)
Definition modf (s : bool) (m : positive) (e : Z) : Z * spec_float :=
  if 0 <=? e then ((if s then -1 else 1) * (Z.pos m * 2 ^ e), S754_zero s)
  else
    let k := 2 ^ (- e) in
    let ip := Z.pos m / k in
    let fp := Z.pos m mod k in
    ((if s then - ip else ip),
     binary_normalize prec emax (if s then - fp else fp) e s).

Definition time_t_min : Z := - 2 ^ 63.
Definition time_t_max : Z := 2 ^ 63 - 1.

(** Seconds and microseconds of a timestamp: an [int] is taken as it is, a
    float is split and its fraction rounded to microseconds, half to even. *)
Definition timestamp_to_timeval (n : number) : result (Z * Z) :=
  match n with
  | NInt z =>
      if (z <? time_t_min) || (time_t_max <? z) then Raise OverflowError
      else Ok (z, 0)
  | NFloat S754_nan => Raise ValueError
  | NFloat (S754_infinity _) => Raise OverflowError
  | NFloat (S754_zero _) => Ok (0, 0)
  | NFloat (S754_finite s m e) =>
      let '(intpart, floatpart) := modf s m e in
      let us := round_half_even (SFmul prec emax floatpart (float_of_Z 1000000)) in
      let '(intpart, us) :=
        if 1000000 <=? us then (intpart + 1, us - 1000000)
        else if us <? 0 then (intpart - 1, us + 1000000)
        else (intpart, us) in
      if (intpart <? time_t_min) || (time_t_max <? intpart) then Raise OverflowError
      else Ok (intpart, us)
  end.

Definition fromtimestamp_utc (n : number) : result datetime :=
  tv <- timestamp_to_timeval n ;;
  datetime_from_timet_and_us (fst tv) (snd tv).

(** What [dateutil.parser.parse] hands back: the wall-clock reading (as
    seconds since the epoch and microseconds) and the offset from UTC in
    seconds when the text carried a timezone. *)
Record parsed : Type := mk_parsed { wall_timet : Z; wall_micro : Z; utcoffset : option Z }.

(** [dt.astimezone(timezone.utc) if dt.tzinfo else dt.replace(tzinfo=timezone.utc)] *)
Definition parsed_to_utc (p : parsed) : result datetime :=
  match utcoffset p with
  | None => Ok (mk_datetime (wall_timet p) (wall_micro p))
  | Some off =>
      let t := wall_timet p - off in
      let y := year_of_date (t / 86400) in
      if (y <? 1) || (9999 <? y) then Raise OverflowError
      else Ok (mk_datetime t (wall_micro p))
  end.

(** ** The timestamp normaliser *)

Definition FILETIME_OFFSET : Z := 11644473600.

Definition lit_1e15 : number := NFloat (float_of_Z (10 ^ 15)).
Definition lit_1e12 : number := NFloat (float_of_Z (10 ^ 12)).
Definition lit_1e10 : number := NFloat (float_of_Z (10 ^ 10)).
Definition lit_1e9 : spec_float := float_of_Z (10 ^ 9).
Definition lit_1e6 : spec_float := float_of_Z (10 ^ 6).
Definition lit_1e3 : spec_float := float_of_Z (10 ^ 3).

(** The three [if/elif] divisions of a numeric [ts_val]. *)
Definition reduce_unit (ts_val : number) : result number :=
  if py_gt ts_val lit_1e15 then py_truediv ts_val lit_1e9
  else if py_gt ts_val lit_1e12 then py_truediv ts_val lit_1e6
  else if py_gt ts_val lit_1e10 then py_truediv ts_val lit_1e3
  else Ok ts_val.

(** [if ts_val > 11644473600: ts_val -= 11644473600] *)
Definition correct_epoch (ts_val : number) : result number :=
  if py_gt ts_val (NInt FILETIME_OFFSET) then py_sub ts_val FILETIME_OFFSET
  else Ok ts_val.

Definition numeric_seconds (ts_val : number) : result number :=
  s <- reduce_unit ts_val ;; correct_epoch s.

Definition TIMESTAMP_KEYS : list string :=
  ["datetime"; "timestamp"; "visit_time"; "start_time"; "last_visit_time"].

(** [except (ValueError, TypeError, parser.ParserError): continue] *)
Definition caught (e : exn) : bool :=
  match e with
  | ValueError | TypeError | ParserError => true
  | _ => false
  end.

Section Normalizer.

(** [dateutil.parser.parse], on the text of a string field. *)
Variable parser_parse : string -> result parsed.

(** The body of the [try]: [Ok (Some dt)] is a [return dt]; [Ok None] is a
    value that is neither a number nor a string, for which neither branch
    runs and the loop goes on. *)
Definition convert (ts_val : pyval) : result (option datetime) :=
  match as_number ts_val with
  | Some n =>
      s <- numeric_seconds n ;;
      dt <- fromtimestamp_utc s ;;
      Ok (Some dt)
  | None =>
      match ts_val with
      | PStr text =>
          p <- parser_parse text ;;
          dt <- parsed_to_utc p ;;
          Ok (Some dt)
      | _ => Ok None
      end
  end.

Fixpoint probe (keys : list string) (item : dict) : result (option datetime) :=
  match keys with
  | [] => Ok None
  | key :: rest =>
      match lookup key item with
      | Some ts_val =>
          if truthy ts_val then
            match convert ts_val with
            | Ok (Some dt) => Ok (Some dt)
            | Ok None => probe rest item
            | Raise e => if caught e then probe rest item else Raise e
            end
          else probe rest item
      | None => probe rest item
      end
  end.

Definition _parse_hindsight_timestamp (item : dict) : result (option datetime) :=
  probe TIMESTAMP_KEYS item.

End Normalizer.

(** ** Strings

    A [str] is modelled by a [string] whose characters are the code points
    U+0000 to U+00FF. *)

(** [str.lower] on these code points: A-Z, and U+00C0 to U+00DE but for the
    multiplication sign U+00D7, move up by 32. *)
Definition lower_char (c : ascii) : ascii :=
  let n := N_of_ascii c in
  if ((65 <=? n) && (n <=? 90) || (192 <=? n) && (n <=? 222) && negb (n =? 215))%N
  then ascii_of_N (n + 32)
  else c.

Fixpoint lower (s : string) : string :=
  match s with
  | EmptyString => EmptyString
  | String c rest => String (lower_char c) (lower rest)
  end.

(** [text.startswith(sub)] *)
Fixpoint startswith (sub text : string) : bool :=
  match sub, text with
  | EmptyString, _ => true
  | String _ _, EmptyString => false
  | String a sub', String b text' => Ascii.eqb a b && startswith sub' text'
  end.

(** [sub in text] *)
Fixpoint str_contains (sub text : string) : bool :=
  startswith sub text ||
  match text with
  | EmptyString => false
  | String _ rest => str_contains sub rest
  end.

(** Offsets, from the left, of the occurrences [text.count(sub)] counts for a
    non-empty [sub]: after an occurrence the scan resumes behind it, [skip]
    being the number of characters still to pass over. *)
Fixpoint occurrences_from (sub text : string) (skip pos : nat) : list nat :=
  match text with
  | EmptyString => []
  | String _ rest =>
      match skip with
      | S k => occurrences_from sub rest k (S pos)
      | O =>
          if startswith sub text
          then pos :: occurrences_from sub rest (Nat.pred (String.length sub)) (S pos)
          else occurrences_from sub rest O (S pos)
      end
  end.

(** [text.count(sub)]: non-overlapping occurrences; the empty string is found
    between any two characters and at both ends. *)
Definition str_count (text sub : string) : nat :=
  match sub with
  | EmptyString => S (String.length text)
  | _ => List.length (occurrences_from sub text O O)
  end.

(** [sep.join(parts)] *)
Definition join (sep : string) (parts : list string) : string := String.concat sep parts.

Definition decimal (z : Z) : string := NilZero.string_of_int (Z.to_int z).

Definition hex_digit (n : N) : ascii :=
  if (n <? 10)%N then ascii_of_N (48 + n) else ascii_of_N (87 + n).

Definition hex2 (c : ascii) : string :=
  let n := N_of_ascii c in
  String (hex_digit (n / 16)) (String (hex_digit (n mod 16)) EmptyString).

Definition chr (n : N) : string := String (ascii_of_N n) EmptyString.

Definition backslash : string := chr 92.
Definition dquote : string := chr 34.
Definition squote : string := chr 39.

Fixpoint flat_map_string (f : ascii -> string) (s : string) : string :=
  match s with
  | EmptyString => EmptyString
  | String c rest => (f c ++ flat_map_string f rest)%string
  end.

(** One character of a JSON string under [ensure_ascii=True]. *)
Definition json_escape (c : ascii) : string :=
  let n := N_of_ascii c in
  if (n =? 34)%N then (backslash ++ dquote)%string
  else if (n =? 92)%N then (backslash ++ backslash)%string
  else if (n =? 10)%N then (backslash ++ "n")%string
  else if (n =? 13)%N then (backslash ++ "r")%string
  else if (n =? 9)%N then (backslash ++ "t")%string
  else if (n =? 8)%N then (backslash ++ "b")%string
  else if (n =? 12)%N then (backslash ++ "f")%string
  else if ((n <? 32) || (126 <? n))%N then (backslash ++ "u00" ++ hex2 c)%string
  else String c EmptyString.

Definition json_string (s : string) : string :=
  (dquote ++ flat_map_string json_escape s ++ dquote)%string.

(** One character of [repr] of a [str] quoted by [quote]. *)
Definition repr_escape (quote : ascii) (c : ascii) : string :=
  let n := N_of_ascii c in
  if (n =? 92)%N then (backslash ++ backslash)%string
  else if Ascii.eqb c quote then (backslash ++ String c EmptyString)%string
  else if (n =? 9)%N then (backslash ++ "t")%string
  else if (n =? 10)%N then (backslash ++ "n")%string
  else if (n =? 13)%N then (backslash ++ "r")%string
  else if ((n <? 32) || (126 <? n) && (n <? 161) || (n =? 173))%N
       then (backslash ++ "x" ++ hex2 c)%string
  else String c EmptyString.

Definition repr_string (s : string) : string :=
  let quote :=
    if str_contains squote s && negb (str_contains dquote s)
    then ascii_of_N 34 else ascii_of_N 39 in
  (String quote EmptyString ++ flat_map_string (repr_escape quote) s
     ++ String quote EmptyString)%string.

Section Printing.

(** [float.__repr__] of a finite float (the shortest decimal that reads
    back as the same float). *)
Variable float_repr : spec_float -> string.

Definition json_float (f : spec_float) : string :=
  match f with
  | S754_nan => "NaN"
  | S754_infinity false => "Infinity"
  | S754_infinity true => "-Infinity"
  | _ => float_repr f
  end.

Definition repr_float (f : spec_float) : string :=
  match f with
  | S754_nan => "nan"
  | S754_infinity false => "inf"
  | S754_infinity true => "-inf"
  | _ => float_repr f
  end.

(** [json.dumps(v)] with its defaults. *)
Fixpoint json_dumps (v : pyval) : string :=
  match v with
  | PNone => "null"
  | PBool true => "true"
  | PBool false => "false"
  | PInt z => decimal z
  | PFloat f => json_float f
  | PStr s => json_string s
  | PList l => ("[" ++ join ", " (map json_dumps l) ++ "]")%string
  | PDict d =>
      ("{" ++ join ", "
         (map (fun kv => (json_string (fst kv) ++ ": " ++ json_dumps (snd kv))%string) d)
         ++ "}")%string
  end.

Fixpoint repr (v : pyval) : string :=
  match v with
  | PNone => "None"
  | PBool true => "True"
  | PBool false => "False"
  | PInt z => decimal z
  | PFloat f => repr_float f
  | PStr s => repr_string s
  | PList l => ("[" ++ join ", " (map repr l) ++ "]")%string
  | PDict d =>
      ("{" ++ join ", "
         (map (fun kv => (repr_string (fst kv) ++ ": " ++ repr (snd kv))%string) d)
         ++ "}")%string
  end.

(** [str(v)] *)
Definition str (v : pyval) : string :=
  match v with
  | PStr s => s
  | _ => repr v
  end.

End Printing.

(** [v.lower()]: only a [str] has the method. *)
Definition py_lower (v : pyval) : result string :=
  match v with
  | PStr s => Ok (lower s)
  | _ => Raise AttributeError
  end.


(** ** Ordering of values and the stable sort *)

(** Equality as a list compares its elements and a dict looks up a key: the
    same object, or [a == b].  Numbers are equal by their exact value
    ([True == 1 == 1.0]), strings and lists by content, dicts by their items
    whatever the order; NaN, which [json.loads] reads as one and the same
    object, is found equal to itself though [NaN == NaN] is false. *)
Fixpoint py_eq (a b : pyval) {struct a} : bool :=
  match a, b with
  | PNone, PNone => true
  | PFloat S754_nan, PFloat S754_nan => true
  | PStr s, PStr t => String.eqb s t
  | PList l1, PList l2 =>
      (fix list_eq (l1 l2 : list pyval) {struct l1} : bool :=
         match l1, l2 with
         | [], [] => true
         | x :: r1, y :: r2 => py_eq x y && list_eq r1 r2
         | _, _ => false
         end) l1 l2
  | PDict d1, PDict d2 =>
      (List.length d1 =? List.length d2)%nat &&
      (fix all_in (d : list (string * pyval)) : bool :=
         match d with
         | [] => true
         | (k, v) :: rest =>
             match lookup k d2 with
             | Some w => py_eq v w
             | None => false
             end && all_in rest
         end) d1
  | _, _ =>
      match as_number a, as_number b with
      | Some x, Some y => py_eq_num x y
      | _, _ => false
      end
  end.

(** [a < b]: defined between two numbers, two strings and two lists (by
    their first elements that differ, or by their lengths); a TypeError
    otherwise. *)
Fixpoint py_lt (a b : pyval) {struct a} : result bool :=
  match a, b with
  | PStr s, PStr t => Ok (String.ltb s t)
  | PList l1, PList l2 =>
      (fix list_lt (l1 l2 : list pyval) {struct l1} : result bool :=
         match l1, l2 with
         | [], [] => Ok false
         | [], _ :: _ => Ok true
         | _ :: _, [] => Ok false
         | x :: r1, y :: r2 => if py_eq x y then list_lt r1 r2 else py_lt x y
         end) l1 l2
  | _, _ =>
      match as_number a, as_number b with
      | Some x, Some y => Ok (py_lt_num x y)
      | _, _ => Raise TypeError
      end
  end.

Section Sorting.

Context {A : Type}.
Variable key : A -> pyval.
Variable reverse : bool.

(** Does [x], which stood before [y], end up behind it?  Only when the order
    asked for puts [y] strictly first: equal keys keep their order, with
    [reverse=True] too. *)
Definition goes_behind (x y : A) : result bool :=
  if reverse then py_lt (key x) (key y) else py_lt (key y) (key x).

Fixpoint insert_sorted (x : A) (l : list A) : result (list A) :=
  match l with
  | [] => Ok [x]
  | y :: rest =>
      b <- goes_behind x y ;;
      if b then r <- insert_sorted x rest ;; Ok (y :: r)
      else Ok (x :: l)
  end.

(** [sorted(l, key=key, reverse=reverse)] and [l.sort(key=key, reverse=reverse)]:
    a stable sort; a comparison that raises ends it.  The order is the one
    of [list.sort] for keys that [<] orders totally (numbers other than NaN,
    strings, lists of these); the place [list.sort] gives a NaN key, which
    depends on the runs it merges, is not modelled. *)
Fixpoint sorted (l : list A) : result (list A) :=
  match l with
  | [] => Ok []
  | x :: rest => r <- sorted rest ;; insert_sorted x r
  end.

End Sorting.

(** The same sort on integer keys, largest first, where no comparison can
    raise. *)
Section SortDesc.

Context {A : Type}.
Variable ikey : A -> Z.

Fixpoint insert_desc (x : A) (l : list A) : list A :=
  match l with
  | [] => [x]
  | y :: rest => if ikey x <? ikey y then y :: insert_desc x rest else x :: l
  end.

Fixpoint sort_desc (l : list A) : list A :=
  match l with
  | [] => []
  | x :: rest => insert_desc x (sort_desc rest)
  end.

End SortDesc.

(** ** The store of analyses *)

(** One entry of [analysis_results]: where the records came from
    ([source_file] or [source_profile]), the browser, and the records as
    [json.loads] gave them, one per line of the tool's output. *)
Record analysis : Type := mk_analysis {
  source : string;
  browser_type : string;
  results : list pyval
}.

Definition store : Type := list (string * analysis).

Fixpoint find_analysis (analysis_id : string) (analysis_results : store) : option analysis :=
  match analysis_results with
  | [] => None
  | (k, a) :: rest =>
      if String.eqb analysis_id k then Some a else find_analysis analysis_id rest
  end.

(** ** The query engine *)

Record date_range_arg : Type := mk_date_range {
  start_date : option string;
  end_date : option string
}.

(** The arguments of the [search_analysis_results] tool, typed as its input
    schema declares them; [None] is a key that is absent. *)
Record search_arguments : Type := mk_search_arguments {
  analysis_id : string;
  search_term : option string;
  artifact_type : option string;
  date_range : option date_range_arg
}.

(** One entry of [matches]. *)
Record match_entry : Type := mk_match {
  m_category : pyval;
  m_item : dict;
  m_relevance : nat
}.

(** What the reply shows of a match. *)
Record shown_match : Type := mk_shown {
  shown_category : pyval;
  shown_timestamp : option datetime;
  shown_url : option pyval;
  shown_title : option pyval;
  shown_visit_count : option pyval
}.

(** What the summary reports: the ten largest categories with their counts,
    the entries of the "Top visited" and "Recent downloads" lines (a line
    that is not written is [None]; its entries are joined by ", "), and the
    number after "Total artifacts". *)
Record summary : Type := mk_summary {
  category_lines : list (pyval * nat);
  top_visited : option (list string);
  recent_downloads : option (list string);
  total_items : nat
}.

(** The text a tool returns: a plain message, the listing of a search
    ("Found [total] matches ...", the matches shown, "... and [n] more
    matches"), or the summary of an analysis. *)
Inductive content : Type :=
| Message (text : string)
| Listing (total : nat) (shown : list shown_match) (more : option nat)
| Report (a : analysis) (s : summary)
| ErrorMessage (e : exn).

Definition not_found_text (analysis_id : string) : string :=
  ("Error: Analysis ID '" ++ analysis_id ++ "' not found")%string.

Definition invalid_date_text : string :=
  "Error: Invalid date format. Please use YYYY-MM-DD.".

Definition no_matches_text (analysis_id : string) : string :=
  ("No matches found for the specified criteria in analysis '" ++ analysis_id ++ "'.")%string.

(** [item.get('artifact') or item.get('type') or item.get('category') or default] *)
Definition category_of (item : dict) (default : string) : pyval :=
  py_or (py_or (py_or (get item "artifact") (get item "type")) (get item "category"))
        (PStr default).

Definition nonempty (s : string) : bool := negb (String.eqb s EmptyString).

Fixpoint map_result {A B : Type} (f : A -> result B) (l : list A) : result (list B) :=
  match l with
  | [] => Ok []
  | a :: rest => b <- f a ;; bs <- map_result f rest ;; Ok (b :: bs)
  end.

Definition relevance_key (m : match_entry) : pyval := PInt (Z.of_nat (m_relevance m)).

Section QueryEngine.

Variable parser_parse : string -> result parsed.
Variable float_repr : spec_float -> string.

(** [datetime.fromisoformat(text).date()]; [None] is its ValueError. *)
Variable fromisoformat : string -> option date.

(** [if bound: ... = datetime.fromisoformat(bound).date()] *)
Definition parse_bound (bound : option string) : result (option date) :=
  match bound with
  | Some text =>
      if nonempty text then
        match fromisoformat text with
        | Some d => Ok (Some d)
        | None => Raise ValueError
        end
      else Ok None
  | None => Ok None
  end.

Definition parse_date_range (range : option date_range_arg)
  : result (option date * option date) :=
  match range with
  | Some r =>
      s <- parse_bound (start_date r) ;;
      e <- parse_bound (end_date r) ;;
      Ok (s, e)
  | None => Ok (None, None)
  end.

(** The date filter of the loop: [Ok true] keeps the record. *)
Definition date_filter (start_bound end_bound : option date) (item : dict) : result bool :=
  match start_bound, end_bound with
  | None, None => Ok true
  | _, _ =>
      item_dt <- _parse_hindsight_timestamp parser_parse item ;;
      match item_dt with
      | None => Ok false
      | Some dt =>
          let item_date := date_of dt in
          if match start_bound with Some s => item_date <? s | None => false end then Ok false
          else if match end_bound with Some e => e <? item_date | None => false end then Ok false
          else Ok true
      end
  end.

(** The artifact-type filter of the loop. *)
Definition category_filter (artifact : option string) (item : dict) : result bool :=
  match artifact with
  | Some wanted =>
      if nonempty wanted then
        category <- py_lower (category_of item EmptyString) ;;
        Ok (str_contains (lower wanted) category)
      else Ok true
  | None => Ok true
  end.

Definition item_text (item : dict) : string := lower (json_dumps float_repr (PDict item)).

(** The search-term filter of the loop; [term] is already lower-cased. *)
Definition term_filter (term : string) (item : dict) : bool :=
  negb (nonempty term && negb (str_contains term (item_text item))).

Definition relevance (term : string) (item : dict) : nat :=
  if nonempty term then str_count (item_text item) term else 1%nat.

Definition make_match (term : string) (item : dict) : match_entry :=
  mk_match (category_of item "unknown") item (relevance term item).

(** The loop that fills [matches]. *)
Fixpoint collect_matches (start_bound end_bound : option date) (artifact : option string)
    (term : string) (entries : list pyval) : result (list match_entry) :=
  match entries with
  | [] => Ok []
  | PDict item :: rest =>
      in_range <- date_filter start_bound end_bound item ;;
      if negb in_range then collect_matches start_bound end_bound artifact term rest
      else
        of_type <- category_filter artifact item ;;
        if negb of_type then collect_matches start_bound end_bound artifact term rest
        else if negb (term_filter term item)
        then collect_matches start_bound end_bound artifact term rest
        else
          ms <- collect_matches start_bound end_bound artifact term rest ;;
          Ok (make_match term item :: ms)
  | _ :: rest => collect_matches start_bound end_bound artifact term rest
  end.

(** [matches] after [matches.sort(key=lambda x: x["relevance"], reverse=True)]. *)
Definition ranked_matches (start_bound end_bound : option date) (artifact : option string)
    (term : string) (entries : list pyval) : result (list match_entry) :=
  ms <- collect_matches start_bound end_bound artifact term entries ;;
  sorted relevance_key true ms.

Definition show_match (m : match_entry) : result shown_match :=
  item_dt <- _parse_hindsight_timestamp parser_parse (m_item m) ;;
  Ok (mk_shown (m_category m) item_dt
        (lookup "url" (m_item m)) (lookup "title" (m_item m))
        (lookup "visit_count" (m_item m))).

(** [arguments.get("search_term", "").lower()] *)
Definition lowered_term (arguments : search_arguments) : string :=
  lower (match search_term arguments with Some t => t | None => EmptyString end).

Definition search_analysis_results (arguments : search_arguments) (analysis_results : store)
  : result content * store :=
  (match find_analysis (analysis_id arguments) analysis_results with
   | None => Ok (Message (not_found_text (analysis_id arguments)))
   | Some a =>
       match parse_date_range (date_range arguments) with
       | Raise ValueError => Ok (Message invalid_date_text)
       | Raise e => Raise e
       | Ok (start_bound, end_bound) =>
           matches <- ranked_matches start_bound end_bound (artifact_type arguments)
                        (lowered_term arguments) (results a) ;;
           match matches with
           | [] => Ok (Message (no_matches_text (analysis_id arguments)))
           | _ =>
               shown <- map_result show_match (firstn 20 matches) ;;
               Ok (Listing (List.length matches) shown
                     (if (20 <? List.length matches)%nat
                      then Some (List.length matches - 20)%nat else None))
           end
       end
   end,
   analysis_results).

(** ** The summariser *)

Definition hashable (v : pyval) : bool :=
  match v with
  | PList _ | PDict _ => false
  | _ => true
  end.

(** [buckets[category] = buckets.get(category, 0) + 1] *)
Fixpoint bucket_add (category : pyval) (buckets : list (pyval * nat)) : list (pyval * nat) :=
  match buckets with
  | [] => [(category, 1%nat)]
  | (k, n) :: rest =>
      if py_eq k category then (k, S n) :: rest
      else (k, n) :: bucket_add category rest
  end.

Fixpoint count_categories (items_list : list pyval) (buckets : list (pyval * nat))
  : result (list (pyval * nat)) :=
  match items_list with
  | [] => Ok buckets
  | PDict it :: rest =>
      let category := category_of it "unknown" in
      if hashable category then count_categories rest (bucket_add category buckets)
      else Raise TypeError
  | _ :: rest => count_categories rest buckets
  end.

(** The entries that are dicts, in their order. *)
Fixpoint dict_items (items_list : list pyval) : list dict :=
  match items_list with
  | [] => []
  | PDict it :: rest => it :: dict_items rest
  | _ :: rest => dict_items rest
  end.

(** [(u.get('url') or '')[:50] + ('...' if len(u.get('url') or '') > 50 else '')] *)
Definition render_url (u : dict) : result string :=
  match py_or (get u "url") (PStr EmptyString) with
  | PStr s =>
      Ok (substring 0 50 s ++ (if (50 <? String.length s)%nat then "..." else EmptyString))%string
  | _ => Raise TypeError
  end.

Definition visit_count_key (u : dict) : pyval := get_default u "visit_count" (PInt 0).

Definition top_visited_line (items_list : list pyval) : result (option (list string)) :=
  let urls := filter (contains_key "url") (dict_items items_list) in
  match urls with
  | [] => Ok None
  | _ =>
      sorted_urls <- sorted visit_count_key true urls ;;
      match firstn 3 sorted_urls with
      | [] => Ok None
      | top_urls => shown <- map_result render_url top_urls ;; Ok (Some shown)
      end
  end.

(** [text.split('/')[-1]] *)
Fixpoint last_segment (text seg : string) : string :=
  match text with
  | EmptyString => seg
  | String c rest =>
      if Ascii.eqb c "/"%char then last_segment rest EmptyString
      else last_segment rest (seg ++ String c EmptyString)%string
  end.

Definition is_download (it : dict) : bool :=
  str_contains "download"
    (lower (str float_repr (py_or (py_or (get it "artifact") (get it "type")) (PStr EmptyString))))
  || contains_key "target_path" it.

Definition render_download (dl : dict) : result string :=
  match py_or (get dl "target_path") (PStr EmptyString) with
  | PStr s => Ok (last_segment s EmptyString)
  | _ => Raise AttributeError
  end.

Definition start_time_key (dl : dict) : pyval := get_default dl "start_time" (PStr EmptyString).

Definition recent_downloads_line (items_list : list pyval) : result (option (list string)) :=
  let downloads := filter is_download (dict_items items_list) in
  match downloads with
  | [] => Ok None
  | _ =>
      sorted_downloads <- sorted start_time_key true downloads ;;
      match firstn 3 sorted_downloads with
      | [] => Ok None
      | recent => shown <- map_result render_download recent ;; Ok (Some shown)
      end
  end.

Definition count_key (line : pyval * nat) : pyval := PInt (Z.of_nat (snd line)).

Definition create_analysis_summary (items_list : list pyval) : result summary :=
  let total := List.length items_list in
  buckets <- count_categories items_list [] ;;
  by_count <- sorted count_key true buckets ;;
  visited <- top_visited_line items_list ;;
  downloads <- recent_downloads_line items_list ;;
  Ok (mk_summary (firstn 10 by_count) visited downloads total).

Definition get_analysis_summary (wanted : string) (analysis_results : store)
  : result content * store :=
  (match find_analysis wanted analysis_results with
   | None => Ok (Message (not_found_text wanted))
   | Some a => s <- create_analysis_summary (results a) ;; Ok (Report a s)
   end,
   analysis_results).

(** ** The tool boundary *)

Inductive tool_call : Type :=
| search_analysis_results_tool (arguments : search_arguments)
| get_analysis_summary_tool (wanted : string).

(** [handle_call_tool]: whatever a tool raises is turned into the text
    "Error: ..." of the exception. *)
Definition handle_call_tool (call : tool_call) (analysis_results : store) : content * store :=
  let '(outcome, analysis_results') :=
    match call with
    | search_analysis_results_tool arguments =>
        search_analysis_results arguments analysis_results
    | get_analysis_summary_tool wanted =>
        get_analysis_summary wanted analysis_results
    end in
  (match outcome with
   | Ok reply => reply
   | Raise e => ErrorMessage e
   end,
   analysis_results').

End QueryEngine.

(** ** Stand-ins for the library functions the model takes as parameters

    They serve to run the model on concrete records: a [dateutil] that
    recognises no text, a [float.__repr__] that prints nothing, and a
    [fromisoformat] that reads the plain form YYYY-MM-DD only. *)

Definition no_parser : string -> result parsed := fun _ => Raise ParserError.

Definition no_float_repr : spec_float -> string := fun _ => EmptyString.

Definition digit_of (c : ascii) : option Z :=
  let n := N_of_ascii c in
  if ((48 <=? n) && (n <=? 57))%N then Some (Z.of_N n - 48) else None.

Fixpoint digits_value (cs : list ascii) (acc : Z) : option Z :=
  match cs with
  | [] => Some acc
  | c :: rest =>
      match digit_of c with
      | Some d => digits_value rest (10 * acc + d)
      | None => None
      end
  end.

Definition is_leap (y : Z) : bool :=
  (y mod 4 =? 0) && (negb (y mod 100 =? 0) || (y mod 400 =? 0)).

Definition days_in_month (y m : Z) : Z :=
  if m =? 2 then (if is_leap y then 29 else 28)
  else if (m =? 4) || (m =? 6) || (m =? 9) || (m =? 11) then 30
  else 31.

Definition iso_date_only (text : string) : option date :=
  match list_ascii_of_string text with
  | [y1; y2; y3; y4; s1; m1; m2; s2; d1; d2] =>
      if Ascii.eqb s1 "-"%char && Ascii.eqb s2 "-"%char then
        match digits_value [y1; y2; y3; y4] 0, digits_value [m1; m2] 0,
              digits_value [d1; d2] 0 with
        | Some y, Some m, Some d =>
            if (1 <=? y) && (1 <=? m) && (m <=? 12) && (1 <=? d) && (d <=? days_in_month y m)
            then Some (days_from_civil y m d)
            else None
        | _, _, _ => None
        end
      else None
  | _ => None
  end.

(** ** Notions the properties are stated with *)

(** The unit a numeric timestamp is taken to be in, by its magnitude, as the
    specification words it. *)
Inductive unit_bracket : Type := Nanoseconds | Microseconds | Milliseconds | Seconds.

Definition spec_bracket (v : number) : unit_bracket :=
  if py_gt v lit_1e15 then Nanoseconds
  else if py_gt v lit_1e12 then Microseconds
  else if py_gt v lit_1e10 then Milliseconds
  else Seconds.

Definition spec_divisor (b : unit_bracket) : option spec_float :=
  match b with
  | Nanoseconds => Some lit_1e9
  | Microseconds => Some lit_1e6
  | Milliseconds => Some lit_1e3
  | Seconds => None
  end.

(** Unit reduction by the bracket's divisor, then the epoch correction. *)
Definition spec_seconds (v : number) : result number :=
  s <- match spec_divisor (spec_bracket v) with
       | Some d => py_truediv v d
       | None => Ok v
       end ;;
  if py_gt s (NInt FILETIME_OFFSET) then py_sub s FILETIME_OFFSET else Ok s.

(** The seconds, read as a UTC instant. *)
Definition spec_normalize (v : number) : result (option datetime) :=
  s <- spec_seconds v ;;
  dt <- fromtimestamp_utc s ;;
  Ok (Some dt).

(** Scenario B of the specification. *)
Definition scenario_B : dict := [("visit_time", PInt 13288464000000000)].

(** A record whose first candidate field holds a list. *)
Definition list_valued_datetime : dict :=
  [("datetime", PList [PInt 1]); ("timestamp", PInt 1609459200)].

Section PassedOver.

Variable parser_parse : string -> result parsed.
Variable item : dict.

(** A candidate field the loop passes over: absent, empty, of a type that
    is neither a number nor a string, or one whose conversion raises an
    exception the [except] clause names. *)
Definition passed_over (key : string) : Prop :=
  match lookup key item with
  | None => True
  | Some v =>
      truthy v = false
      \/ convert parser_parse v = Ok None
      \/ exists e, convert parser_parse v = Raise e /\ caught e = true
  end.

End PassedOver.

(** [text[k:]] *)
Fixpoint drop (k : nat) (text : string) : string :=
  match k, text with
  | O, _ => text
  | S k', String _ rest => drop k' rest
  | S _, EmptyString => EmptyString
  end.

(** [positions] are non-overlapping occurrences of [sub] in [text], taken
    from the left: [sub] stands at each of them, each ends before the next
    begins, and any place where [sub] stands in [text] is reached by one of
    them, so that no further occurrence can be counted. *)
Definition non_overlapping_occurrences (sub text : string) (positions : list nat) : Prop :=
  Forall (fun p => startswith sub (drop p text) = true) positions
  /\ StronglySorted (fun p q => (p + String.length sub <= q)%nat) positions
  /\ forall q, startswith sub (drop q text) = true ->
       exists p, In p positions /\ (p <= q < p + String.length sub)%nat.

(** [l1] is [l2] with some elements left out, the others in their order. *)
Inductive subseq {A : Type} : list A -> list A -> Prop :=
| subseq_nil : subseq [] []
| subseq_skip (x : A) (l1 l2 : list A) : subseq l1 l2 -> subseq l1 (x :: l2)
| subseq_keep (x : A) (l1 l2 : list A) : subseq l1 l2 -> subseq (x :: l1) (x :: l2).

(** The elements of a list placed largest key first. *)
Definition descending {A : Type} (ikey : A -> Z) (l : list A) : Prop :=
  StronglySorted (fun a b => ikey b <= ikey a) l.

(** Elements with the same key stand in [l1] in the order they have in [l2]. *)
Definition same_order_among_equals {A : Type} (ikey : A -> Z) (l1 l2 : list A) : Prop :=
  forall k : Z, filter (fun a => ikey a =? k) l1 = filter (fun a => ikey a =? k) l2.

(** The relevance of a match as a sort key. *)
Definition score (m : match_entry) : Z := Z.of_nat (m_relevance m).

(** [isinstance(v, dict)] *)
Definition is_dict (v : pyval) : bool :=
  match v with
  | PDict _ => true
  | _ => false
  end.

(** A date lies outside the bounds that are given. *)
Definition outside_bounds (start_bound end_bound : option date) (d : date) : Prop :=
  (exists s, start_bound = Some s /\ d < s) \/ (exists e, end_bound = Some e /\ e < d).

(** A record gets into [matches] when the three filters keep it. *)
Definition kept_by_filters (parser_parse : string -> result parsed)
    (float_repr : spec_float -> string) (start_bound end_bound : option date)
    (artifact : option string) (term : string) (item : dict) : Prop :=
  date_filter parser_parse start_bound end_bound item = Ok true
  /\ category_filter artifact item = Ok true
  /\ term_filter float_repr term item = true.

(** ** Records and sessions the properties are run on *)

Definition record_a : dict :=
  [("url", PStr "http://a.com"); ("visit_count", PInt 5)].

Definition record_b : dict :=
  [("url", PStr "http://b.com"); ("visit_count", PInt 9)].

(** Scenario A of the specification. *)
Definition scenario_A : list pyval := [PDict record_a; PDict record_b].

Definition alpha_once : dict :=
  [("url", PStr "http://a.com"); ("title", PStr "Alpha"); ("timestamp", PInt 1609459200)].

Definition alpha_twice : dict :=
  [("type", PStr "chrome:history:URL"); ("url", PStr "http://b.com/alpha/ALPHA")].

Definition no_alpha : dict := [("url", PStr "http://c.com")].

(** A session of three records and one line that is not an object. *)
Definition session_records : list pyval :=
  [PDict alpha_once; PInt 5; PDict no_alpha; PDict alpha_twice].

Definition session_store : store :=
  [("history_1", mk_analysis "History" "Chrome" session_records)].

Definition search_for (term : string) : search_arguments :=
  mk_search_arguments "history_1" (Some term) None None.


(** Scenario D of the specification: records from 2099 on. *)
Definition from_2099 : search_arguments :=
  mk_search_arguments "history_1" (Some EmptyString) None
    (Some (mk_date_range (Some "2099-01-01") None)).

(** A session whose only record has a timestamp no [time_t] can hold. *)
Definition out_of_range_store : store :=
  [("history_1",
    mk_analysis "History" "Chrome" [PDict [("timestamp", PInt (- (10 ^ 20)))]])].

(** A date range whose start is the empty string. *)
Definition empty_start : search_arguments :=
  mk_search_arguments "history_1" (Some "c.com") None
    (Some (mk_date_range (Some EmptyString) None)).



(** The visit count the summariser sorts a record by, when it is an [int];
    a record without the field counts 0. *)
Definition visit_count (u : dict) : Z :=
  match visit_count_key u with
  | PInt z => z
  | _ => 0
  end.

(** The text of the url field; a field that is empty gives the empty text. *)
Definition url_text (u : dict) : string :=
  match py_or (get u "url") (PStr EmptyString) with
  | PStr s => s
  | _ => EmptyString
  end.

(** The first 50 characters, and an ellipsis when there were more. *)
Definition truncated (s : string) : string :=
  (substring 0 50 s ++ (if (50 <? String.length s)%nat then "..." else EmptyString))%string.

(** The records the "Top visited" line is drawn from. *)
Definition url_records (items_list : list pyval) : list dict :=
  filter (contains_key "url") (dict_items items_list).

(** A record the line can be written for: its visit count, if any, is an
    [int], and its url a string or empty. *)
Definition countable (u : dict) : Prop :=
  (exists z, visit_count_key u = PInt z)
  /\ (exists s, py_or (get u "url") (PStr EmptyString) = PStr s).

(** The sum of the counts of category lines. *)
Definition counted (lines : list (pyval * nat)) : nat := list_sum (map snd lines).

(** A record with a visit count and no url. *)
Definition count_only : dict := [("title", PStr "Gamma"); ("visit_count", PInt 7)].

(** The count of a category line as a sort key. *)
Definition count_rank (line : pyval * nat) : Z := Z.of_nat (snd line).

(** ** Storing an analysis, and the resources of the store *)

(** [analysis_results[analysis_id] = entry]: the entry of a key that is
    there is replaced, a new key goes to the end. *)
Fixpoint store_set (analysis_id : string) (entry : analysis) (analysis_results : store)
  : store :=
  match analysis_results with
  | [] => [(analysis_id, entry)]
  | (k, a) :: rest =>
      if String.eqb analysis_id k then (k, entry) :: rest
      else (k, a) :: store_set analysis_id entry rest
  end.

(** The two tools that store their results. *)
Inductive ingestion : Type :=
| analyze_browser_history_tool
| analyze_chrome_profile_tool.

Definition id_prefix (tool : ingestion) : string :=
  match tool with
  | analyze_browser_history_tool => "history_"
  | analyze_chrome_profile_tool => "profile_"
  end.

(** [f"history_{len(analysis_results) + 1}"], [f"profile_{len(analysis_results) + 1}"] *)
Definition new_analysis_id (tool : ingestion) (analysis_results : store) : string :=
  (id_prefix tool ++ decimal (Z.of_nat (List.length analysis_results) + 1))%string.

(** The step of both tools that stores the records read from the JSONL
    output: the id it makes and the store after it. *)
Definition store_results (tool : ingestion) (source_path browser : string)
    (items : list pyval) (analysis_results : store) : string * store :=
  let analysis_id := new_analysis_id tool analysis_results in
  (analysis_id, store_set analysis_id (mk_analysis source_path browser items) analysis_results).

(** What a tool answers after storing: the id with the summary, or, when
    the summary raises, the text "Error during analysis: ..." of its
    [except Exception]. *)
Inductive ingestion_reply : Type :=
| Completed (analysis_id : string) (s : summary)
| ErrorDuring (e : exn).

Definition store_and_summarize (float_repr : spec_float -> string) (tool : ingestion)
    (source_path browser : string) (items : list pyval) (analysis_results : store)
  : ingestion_reply * store :=
  let '(analysis_id, analysis_results') :=
    store_results tool source_path browser items analysis_results in
  (match create_analysis_summary float_repr items with
   | Ok s => Completed analysis_id s
   | Raise e => ErrorDuring e
   end,
   analysis_results').

(** The stores the tools can build, starting from the empty one. *)
Inductive reachable : store -> Prop :=
| reachable_empty : reachable []
| reachable_stored (tool : ingestion) (source_path browser : string) (items : list pyval)
    (analysis_results : store) :
    reachable analysis_results ->
    reachable (snd (store_results tool source_path browser items analysis_results)).

Record resource : Type := mk_resource {
  uri : string;
  name : string;
  description : string
}.

Definition resource_prefix : string := "hindsight://analysis/".

(** [handle_list_resources]: one resource per stored analysis. *)
Definition handle_list_resources (analysis_results : store) : list resource :=
  map (fun entry : string * analysis =>
         mk_resource (resource_prefix ++ fst entry)
           ("Analysis " ++ fst entry)
           ("Browser forensics analysis of " ++ source (snd entry)))%string
      analysis_results.

(** [handle_read_resource]: the analysis whose JSON text is returned; a
    ValueError for a URI of another form and for an id that is not stored. *)
Definition handle_read_resource (uri_str : string) (analysis_results : store)
  : result analysis :=
  if startswith resource_prefix uri_str then
    match find_analysis (last_segment uri_str EmptyString) analysis_results with
    | Some a => Ok a
    | None => Raise ValueError
    end
  else Raise ValueError.

(** The text has no "/". *)
Fixpoint no_slash (text : string) : bool :=
  match text with
  | EmptyString => true
  | String c rest => negb (Ascii.eqb c "/"%char) && no_slash rest
  end.

(** The number of a category's records, among the records that are dicts. *)
Definition records_of_category (c : string) (items_list : list pyval) : nat :=
  List.length
    (filter (fun it => py_eq (category_of it "unknown") (PStr c)) (dict_items items_list)).

(** The count a category has in the buckets; 0 when it has no bucket. *)
Fixpoint bucket_count (c : string) (buckets : list (pyval * nat)) : nat :=
  match buckets with
  | [] => 0%nat
  | (k, n) :: rest => if py_eq k (PStr c) then n else bucket_count c rest
  end.

(** Buckets as the tally builds them from string categories: every key is a
    string, occurs once, and has counted at least one record. *)
Definition tidy (buckets : list (pyval * nat)) : Prop :=
  Forall (fun line => (exists c, fst line = PStr c) /\ (1 <= snd line)%nat) buckets
  /\ NoDup (map fst buckets).

(** The ids of a store are numbered from [k] on, in the order of storing. *)
Fixpoint numbered_from (k : Z) (analysis_results : store) : Prop :=
  match analysis_results with
  | [] => True
  | (analysis_id, _) :: rest =>
      (exists tool, analysis_id = (id_prefix tool ++ decimal k)%string)
      /\ numbered_from (k + 1) rest
  end.

(** * Properties *)

Lemma bind_Ok_inv {A B : Type} (r : result A) (k : A -> result B) (b : B) :
  bind r k = Ok b -> exists a, r = Ok a /\ k a = Ok b.
Proof.
  destruct r as [a | e]; simpl; intros H; [ eauto | discriminate ].
Qed.

(** ** The timestamp normaliser *)


Lemma numeric_seconds_spec (v : number) : numeric_seconds v = spec_seconds v.
Proof.
  unfold numeric_seconds, spec_seconds, reduce_unit, correct_epoch, spec_bracket.
  destruct (py_gt v lit_1e15); [ reflexivity | ].
  destruct (py_gt v lit_1e12); [ reflexivity | ].
  destruct (py_gt v lit_1e10); reflexivity.
Qed.

Lemma convert_numeric parser_parse (v : pyval) (n : number) :
  as_number v = Some n ->
  convert parser_parse v = (s <- numeric_seconds n ;; dt <- fromtimestamp_utc s ;; Ok (Some dt)).
Proof.
  intros Hn. unfold convert. rewrite Hn. reflexivity.
Qed.


(** C1 (the code departs from it).  The record [{"visit_time": 13288464000000000}]
    holds microseconds since 1601 of an instant in February 2022.  The
    normaliser finds the value above 1e15, divides it by 1e9, finds the
    quotient 13288464.0 below the epoch offset, subtracts nothing, and returns
    1970-06-03: the year is 1970, not 2022.  The last part shows what the
    microsecond reading of the same value gives. *)
Theorem C1_scenario_B_lands_in_1970 (parser_parse : string -> result parsed) :
  _parse_hindsight_timestamp parser_parse scenario_B = Ok (Some (mk_datetime 13288464 0))
  /\ reduce_unit (NInt 13288464000000000) = Ok (NFloat (float_of_Z 13288464))
  /\ correct_epoch (NFloat (float_of_Z 13288464)) = Ok (NFloat (float_of_Z 13288464))
  /\ civil_from_days (date_of (mk_datetime 13288464 0)) = (1970, 6, 3)
  /\ year_of (mk_datetime (13288464000000000 / 10 ^ 6 - FILETIME_OFFSET) 0) = 2022.
Proof.
  repeat split; vm_compute; reflexivity.
Qed.

(** C2.  A numeric value the normaliser finds is converted as the
    specification says: its bracket (above 1e15, above 1e12, above 1e10, or
    none of them) decides the one division that applies, the epoch offset is
    subtracted when the seconds exceed it, and the seconds are read as a UTC
    instant.  The integer 1609459200 is in no bracket, is not corrected, and
    gives the Unix instant 1609459200. *)
Theorem C2_numeric_value_normalization (parser_parse : string -> result parsed) :
  (forall (v : pyval) (n : number),
      as_number v = Some n -> convert parser_parse v = spec_normalize n)
  /\ (forall n : number,
        reduce_unit n =
        match spec_bracket n with
        | Nanoseconds => py_truediv n lit_1e9
        | Microseconds => py_truediv n lit_1e6
        | Milliseconds => py_truediv n lit_1e3
        | Seconds => Ok n
        end)
  /\ spec_bracket (NInt 1609459200) = Seconds
  /\ numeric_seconds (NInt 1609459200) = Ok (NInt 1609459200)
  /\ _parse_hindsight_timestamp parser_parse [("timestamp", PInt 1609459200)]
     = Ok (Some (mk_datetime 1609459200 0)).
Proof.
  split; [ | split; [ | repeat split; vm_compute; reflexivity ] ].
  - intros v n Hn. rewrite (convert_numeric _ _ _ Hn).
    unfold spec_normalize. rewrite numeric_seconds_spec. reflexivity.
  - intros n. unfold reduce_unit, spec_bracket.
    destruct (py_gt n lit_1e15); [ reflexivity | ].
    destruct (py_gt n lit_1e12); [ reflexivity | ].
    destruct (py_gt n lit_1e10); reflexivity.
Qed.

Lemma C2_numeric_value_normalization_witness :
  as_number (PInt 1609459200) = Some (NInt 1609459200)
  /\ convert no_parser (PInt 1609459200) = spec_normalize (NInt 1609459200).
Proof.
  split; [ reflexivity | ].
  apply (proj1 (C2_numeric_value_normalization no_parser)). reflexivity.
Defined.

Section Probing.

Variable parser_parse : string -> result parsed.
Variable item : dict.


Lemma probe_passed_over (key : string) (rest : list string) :
  passed_over parser_parse item key ->
  probe parser_parse (key :: rest) item = probe parser_parse rest item.
Proof.
  unfold passed_over. simpl.
  destruct (lookup key item) as [v | ]; [ | reflexivity ].
  intros [Hf | [Hn | [e [He Hc]]]].
  - rewrite Hf. reflexivity.
  - rewrite Hn. destruct (truthy v); reflexivity.
  - rewrite He, Hc. destruct (truthy v); reflexivity.
Qed.

Lemma probe_after_passed_over (before rest : list string) :
  Forall (passed_over parser_parse item) before ->
  probe parser_parse (before ++ rest) item = probe parser_parse rest item.
Proof.
  induction 1 as [ | key before Hkey _ IH ]; [ reflexivity | ].
  rewrite <- app_comm_cons, probe_passed_over by assumption. exact IH.
Qed.

Lemma probe_converts (key : string) (rest : list string) (v : pyval) (dt : datetime) :
  lookup key item = Some v -> truthy v = true ->
  convert parser_parse v = Ok (Some dt) ->
  probe parser_parse (key :: rest) item = Ok (Some dt).
Proof.
  intros Hl Ht Hc. simpl. rewrite Hl, Ht, Hc. reflexivity.
Qed.

End Probing.


(** C3, as the code has it.  The candidates are probed in the order
    datetime, timestamp, visit_time, start_time, last_visit_time.  A candidate
    that is absent, empty, neither a number nor a string, or whose conversion
    raises ValueError, TypeError or ParserError is passed over and the next
    one is probed; the first candidate that converts gives the timestamp; the
    timestamp is None, and nothing is raised, when every candidate is passed
    over. *)
Theorem C3_probing_passes_over_failures
    (parser_parse : string -> result parsed) (item : dict) :
  TIMESTAMP_KEYS = ["datetime"; "timestamp"; "visit_time"; "start_time"; "last_visit_time"]
  /\ (forall (before after : list string) (key : string) (v : pyval) (dt : datetime),
        TIMESTAMP_KEYS = before ++ key :: after ->
        Forall (passed_over parser_parse item) before ->
        lookup key item = Some v -> truthy v = true ->
        convert parser_parse v = Ok (Some dt) ->
        _parse_hindsight_timestamp parser_parse item = Ok (Some dt))
  /\ (Forall (passed_over parser_parse item) TIMESTAMP_KEYS ->
      _parse_hindsight_timestamp parser_parse item = Ok None).
Proof.
  split; [ reflexivity | split ].
  - intros before after key v dt Hkeys Hbefore Hl Ht Hc.
    unfold _parse_hindsight_timestamp. rewrite Hkeys.
    rewrite probe_after_passed_over by assumption.
    eapply probe_converts; eassumption.
  - intros Hall. unfold _parse_hindsight_timestamp.
    rewrite <- (app_nil_r TIMESTAMP_KEYS).
    rewrite probe_after_passed_over by assumption. reflexivity.
Qed.

Lemma C3_probing_passes_over_failures_witness :
  _parse_hindsight_timestamp no_parser list_valued_datetime
  = Ok (Some (mk_datetime 1609459200 0))
  /\ _parse_hindsight_timestamp no_parser [("datetime", PStr "soon")] = Ok None.
Proof.
  split.
  - apply (proj1 (proj2 (C3_probing_passes_over_failures no_parser list_valued_datetime))
             ["datetime"] ["visit_time"; "start_time"; "last_visit_time"] "timestamp"
             (PInt 1609459200)); try reflexivity.
    constructor; [ | constructor ].
    unfold passed_over. cbn. right. left. reflexivity.
  - apply (proj2 (proj2 (C3_probing_passes_over_failures no_parser [("datetime", PStr "soon")]))).
    apply Forall_cons; [ | repeat (apply Forall_cons; [ exact I | ]); apply Forall_nil ].
    unfold passed_over. cbn. right. right. exists ParserError. split; reflexivity.
Defined.

(** C3 as stated fails: the first present, non-empty candidate of this
    record is a list, from which no instant can be extracted, and yet the
    record's timestamp is not None: the next candidate supplies it. *)
Lemma C3_first_candidate_failure_is_not_final :
  lookup "datetime" list_valued_datetime = Some (PList [PInt 1])
  /\ truthy (PList [PInt 1]) = true
  /\ convert no_parser (PList [PInt 1]) = Ok None
  /\ _parse_hindsight_timestamp no_parser list_valued_datetime
     = Ok (Some (mk_datetime 1609459200 0)).
Proof.
  repeat split; vm_compute; reflexivity.
Qed.

(** A number far out of range is not absorbed: [OverflowError] is not among
    the exceptions the [except] clause names. *)
Lemma out_of_range_number_raises (parser_parse : string -> result parsed) :
  _parse_hindsight_timestamp parser_parse [("timestamp", PInt (10 ^ 30))] = Raise OverflowError
  /\ _parse_hindsight_timestamp parser_parse [("timestamp", PInt (10 ^ 26))] = Raise OSError
  /\ _parse_hindsight_timestamp parser_parse [("timestamp", PInt (10 ^ 21))] = Ok None.
Proof.
  repeat split; vm_compute; reflexivity.
Qed.

(** ** The stable sort *)

Lemma py_lt_int (a b : Z) : py_lt (PInt a) (PInt b) = Ok (a <? b).
Proof.
  reflexivity.
Qed.

Section SortFacts.

Context {A : Type}.
Variable ikey : A -> Z.

Lemma insert_desc_perm (x : A) (l : list A) : Permutation (insert_desc ikey x l) (x :: l).
Proof.
  induction l as [ | y l IH ]; simpl; [ reflexivity | ].
  destruct (ikey x <? ikey y); [ | reflexivity ].
  rewrite IH. apply perm_swap.
Qed.

Lemma sort_desc_perm (l : list A) : Permutation (sort_desc ikey l) l.
Proof.
  induction l as [ | x l IH ]; simpl; [ reflexivity | ].
  rewrite insert_desc_perm. apply perm_skip. exact IH.
Qed.

Lemma sort_desc_length (l : list A) : List.length (sort_desc ikey l) = List.length l.
Proof.
  apply Permutation_length, sort_desc_perm.
Qed.

Lemma sort_desc_In (l : list A) (a : A) : In a (sort_desc ikey l) <-> In a l.
Proof.
  split; apply Permutation_in; [ | symmetry ]; apply sort_desc_perm.
Qed.

Lemma insert_desc_descending (x : A) (l : list A) :
  descending ikey l -> descending ikey (insert_desc ikey x l).
Proof.
  unfold descending.
  induction l as [ | y l IH ]; simpl; intros Hl.
  - constructor; constructor.
  - inversion Hl as [ | ? ? Hl' Hy ]; subst.
    destruct (ikey x <? ikey y) eqn:E.
    + apply Z.ltb_lt in E. constructor; [ apply IH, Hl' | ].
      eapply Permutation_Forall; [ symmetry; apply insert_desc_perm | ].
      constructor; [ lia | exact Hy ].
    + apply Z.ltb_ge in E. constructor; [ exact Hl | ].
      constructor; [ exact E | ].
      eapply Forall_impl; [ | exact Hy ]. simpl. intros; lia.
Qed.

Lemma sort_desc_descending (l : list A) : descending ikey (sort_desc ikey l).
Proof.
  induction l as [ | x l IH ]; simpl; [ constructor | ].
  apply insert_desc_descending, IH.
Qed.

Lemma insert_desc_filter (k : Z) (x : A) (l : list A) :
  filter (fun a => ikey a =? k) (insert_desc ikey x l)
  = filter (fun a => ikey a =? k) (x :: l).
Proof.
  induction l as [ | y l IH ]; [ reflexivity | ].
  simpl insert_desc. destruct (ikey x <? ikey y) eqn:E; [ | reflexivity ].
  apply Z.ltb_lt in E. simpl in *. rewrite IH.
  destruct (ikey x =? k) eqn:Ex; [ | reflexivity ].
  apply Z.eqb_eq in Ex.
  assert (Ey : (ikey y =? k) = false) by (apply Z.eqb_neq; lia).
  rewrite Ey. reflexivity.
Qed.

Lemma sort_desc_stable (l : list A) : same_order_among_equals ikey (sort_desc ikey l) l.
Proof.
  intros k. induction l as [ | x l IH ]; [ reflexivity | ].
  simpl sort_desc. rewrite insert_desc_filter. simpl. rewrite IH. reflexivity.
Qed.

(** Every element among the first [n] of a descending list has a key at
    least as large as any element behind them. *)
Lemma descending_firstn_dominates (n : nat) (l : list A) (a b : A) :
  descending ikey l -> In a (firstn n l) -> In b (skipn n l) -> ikey b <= ikey a.
Proof.
  unfold descending. revert l.
  induction n as [ | n IH ]; intros l Hl Ha Hb; [ contradiction | ].
  destruct l as [ | x l ]; [ contradiction | ].
  inversion Hl as [ | ? ? Hl' Hx ]; subst. simpl in Ha, Hb.
  destruct Ha as [ <- | Ha ].
  - rewrite Forall_forall in Hx. apply Hx.
    rewrite <- (firstn_skipn n l). apply in_or_app. right. exact Hb.
  - eapply IH; eauto.
Qed.

Variable key : A -> pyval.

Lemma insert_sorted_int_keys (x : A) (l : list A) :
  key x = PInt (ikey x) -> Forall (fun a => key a = PInt (ikey a)) l ->
  insert_sorted key true x l = Ok (insert_desc ikey x l).
Proof.
  intros Hx. induction 1 as [ | y l Hy _ IH ]; [ reflexivity | ].
  simpl. unfold goes_behind. rewrite Hx, Hy, py_lt_int. simpl.
  destruct (ikey x <? ikey y); [ rewrite IH | ]; reflexivity.
Qed.

(** With integer keys no comparison raises, and [sorted(..., reverse=True)]
    is the sort by largest key first. *)
Lemma sorted_int_keys (l : list A) :
  Forall (fun a => key a = PInt (ikey a)) l ->
  sorted key true l = Ok (sort_desc ikey l).
Proof.
  induction 1 as [ | x l Hx Hl IH ]; [ reflexivity | ].
  simpl. rewrite IH. simpl. apply insert_sorted_int_keys; [ exact Hx | ].
  eapply Permutation_Forall; [ symmetry; apply sort_desc_perm | exact Hl ].
Qed.

End SortFacts.

(** ** Counting occurrences *)

Section Occurrences.

Variable sub : string.
Hypothesis sub_nonempty : sub <> EmptyString.

Lemma startswith_empty_text : startswith sub EmptyString = false.
Proof.
  destruct sub; [ contradiction | reflexivity ].
Qed.

Lemma length_sub_positive : (1 <= String.length sub)%nat.
Proof.
  destruct sub; [ contradiction | simpl; lia ].
Qed.

Lemma occurrences_sound (text : string) : forall (skip pos p : nat),
  In p (occurrences_from sub text skip pos) ->
  (pos + skip <= p)%nat /\ startswith sub (drop (p - pos) text) = true.
Proof.
  induction text as [ | c rest IH ]; intros skip pos p Hin; [ contradiction | ].
  assert (Hstep : forall k, In p (occurrences_from sub rest k (S pos)) ->
            (pos + S k <= p)%nat /\ startswith sub (drop (p - pos) (String c rest)) = true).
  { intros k Hk. destruct (IH _ _ _ Hk) as [Hle Hs]. split; [ lia | ].
    replace (p - pos)%nat with (S (p - S pos)) by lia. exact Hs. }
  simpl in Hin. destruct skip as [ | k ].
  - destruct (startswith sub (String c rest)) eqn:E.
    + destruct Hin as [ <- | Hin ].
      * split; [ lia | ]. replace (pos - pos)%nat with O by lia. exact E.
      * destruct (Hstep _ Hin) as [_ Hs]. split; [ | exact Hs ].
        destruct (IH _ _ _ Hin). lia.
    + destruct (Hstep _ Hin) as [_ Hs]. split; [ | exact Hs ].
      destruct (IH _ _ _ Hin). lia.
  - apply Hstep, Hin.
Qed.

Lemma occurrences_apart (text : string) : forall (skip pos : nat),
  StronglySorted (fun p q => (p + String.length sub <= q)%nat)
    (occurrences_from sub text skip pos).
Proof.
  induction text as [ | c rest IH ]; intros skip pos; [ constructor | ].
  simpl. destruct skip as [ | k ]; [ | apply IH ].
  destruct (startswith sub (String c rest)); [ | apply IH ].
  constructor; [ apply IH | ].
  apply Forall_forall. intros q Hq.
  destruct (occurrences_sound _ _ _ _ Hq) as [Hle _].
  pose proof length_sub_positive. lia.
Qed.

Lemma occurrences_reach (text : string) : forall (skip pos q : nat),
  (skip <= q)%nat -> startswith sub (drop q text) = true ->
  exists p, In p (occurrences_from sub text skip pos)
            /\ (p <= pos + q < p + String.length sub)%nat.
Proof.
  induction text as [ | c rest IH ]; intros skip pos q Hq Hs.
  - destruct q; simpl in Hs; rewrite startswith_empty_text in Hs; discriminate.
  - assert (Hstep : forall k q', (k <= q')%nat -> q = S q' ->
              exists p, In p (occurrences_from sub rest k (S pos))
                        /\ (p <= pos + q < p + String.length sub)%nat).
    { intros k q' Hk ->. simpl in Hs.
      destruct (IH k (S pos) q' Hk Hs) as [p [Hin Hp]]. exists p. split; [ exact Hin | lia ]. }
    simpl. destruct skip as [ | k ].
    + destruct (startswith sub (String c rest)) eqn:E.
      * destruct (Nat.lt_ge_cases q (String.length sub)) as [Hlt | Hge].
        -- exists pos. split; [ left; reflexivity | lia ].
        -- pose proof length_sub_positive.
           destruct q as [ | q' ]; [ lia | ].
           destruct (Hstep (Nat.pred (String.length sub)) q') as [p [Hin Hp]];
             [ lia | reflexivity | ].
           exists p. split; [ right; exact Hin | exact Hp ].
      * destruct q as [ | q' ]; [ simpl in Hs; congruence | ].
        apply (Hstep O q'); [ lia | reflexivity ].
    + destruct q as [ | q' ]; [ lia | ].
      apply (Hstep k q'); [ lia | reflexivity ].
Qed.

(** [text.count(sub)] is the number of non-overlapping occurrences of [sub]
    in [text], found from the left. *)
Lemma str_count_counts (text : string) :
  exists positions,
    str_count text sub = List.length positions
    /\ non_overlapping_occurrences sub text positions.
Proof.
  exists (occurrences_from sub text O O). split.
  - unfold str_count. destruct sub; [ contradiction | reflexivity ].
  - split; [ | split ].
    + apply Forall_forall. intros p Hp.
      destruct (occurrences_sound _ _ _ _ Hp) as [_ Hs].
      rewrite Nat.sub_0_r in Hs. exact Hs.
    + apply occurrences_apart.
    + intros q Hq. apply (occurrences_reach text O O q); [ lia | exact Hq ].
Qed.

End Occurrences.

(** ** The query engine *)

Lemma lower_nonempty (t : string) : t <> EmptyString -> lower t <> EmptyString.
Proof.
  destruct t; [ contradiction | discriminate ].
Qed.

Lemma nonempty_true (t : string) : t <> EmptyString -> nonempty t = true.
Proof.
  intros H. unfold nonempty. apply negb_true_iff, String.eqb_neq, H.
Qed.

Lemma sort_desc_constant {A : Type} (ikey : A -> Z) (c : Z) (l : list A) :
  Forall (fun a => ikey a = c) l -> sort_desc ikey l = l.
Proof.
  induction 1 as [ | x l Hx Hl IH ]; [ reflexivity | ].
  simpl. rewrite IH. destruct Hl as [ | y l Hy Hl ]; [ reflexivity | ].
  simpl. rewrite Hx, Hy, Z.ltb_irrefl. reflexivity.
Qed.

Lemma dict_items_all_dicts (entries : list pyval) :
  forallb is_dict entries = true -> map PDict (dict_items entries) = entries.
Proof.
  induction entries as [ | v entries IH ]; [ reflexivity | ].
  simpl. intros H. apply andb_true_iff in H. destruct H as [Hv Hrest].
  destruct v; try discriminate. simpl. rewrite IH by exact Hrest. reflexivity.
Qed.

Lemma dict_items_In (entries : list pyval) (item : dict) :
  In item (dict_items entries) <-> In (PDict item) entries.
Proof.
  induction entries as [ | v entries IH ]; [ reflexivity | ].
  destruct v; simpl; rewrite IH; split;
    try (intros [H | H]; [ discriminate H | exact H ]);
    try (intros H; right; exact H).
  - intros [<- | H]; [ left; reflexivity | right; exact H ].
  - intros [H | H]; [ left; congruence | right; exact H ].
Qed.

Lemma dict_items_length (entries : list pyval) :
  (List.length (dict_items entries) <= List.length entries)%nat.
Proof.
  induction entries as [ | v entries IH ]; [ simpl; lia | ].
  destruct v; simpl; lia.
Qed.

Lemma dict_items_of_dicts (items : list dict) : dict_items (map PDict items) = items.
Proof.
  induction items as [ | it items IH ]; [ reflexivity | ]. simpl. rewrite IH. reflexivity.
Qed.

Lemma filter_keeps_all {A : Type} (f : A -> bool) (l : list A) :
  (forall a, f a = true) -> filter f l = l.
Proof.
  intros Hf. induction l as [ | a l IH ]; [ reflexivity | ].
  simpl. rewrite Hf, IH. reflexivity.
Qed.

Lemma subseq_refl {A : Type} (l : list A) : subseq l l.
Proof.
  induction l; constructor; assumption.
Qed.

Lemma subseq_filter {A : Type} (f : A -> bool) (l : list A) : subseq (filter f l) l.
Proof.
  induction l as [ | x l IH ]; simpl; [ constructor | ].
  destruct (f x); constructor; exact IH.
Qed.

Lemma subseq_In {A : Type} (l1 l2 : list A) (a : A) : subseq l1 l2 -> In a l1 -> In a l2.
Proof.
  induction 1 as [ | x l1 l2 _ IH | x l1 l2 _ IH ]; simpl; intros Ha.
  - exact Ha.
  - right. apply IH, Ha.
  - destruct Ha as [Ha | Ha]; [ left; exact Ha | right; apply IH, Ha ].
Qed.

Section QueryFacts.

Variable parser_parse : string -> result parsed.
Variable float_repr : spec_float -> string.

Variables start_bound end_bound : option date.
Variable artifact : option string.
Variable term : string.

Let collect := collect_matches parser_parse float_repr start_bound end_bound artifact term.

Let kept := kept_by_filters parser_parse float_repr start_bound end_bound artifact term.

(** Non-dict entries are skipped: the loop sees the dicts only. *)
Lemma collect_matches_skips_non_dicts (entries : list pyval) :
  collect entries = collect (map PDict (dict_items entries)).
Proof.
  unfold collect.
  induction entries as [ | v entries IH ]; [ reflexivity | ].
  destruct v; simpl; try exact IH.
  rewrite IH. reflexivity.
Qed.

(** What the loop returns, when it returns: the matches of the records the
    filters keep, in the order of the entries. *)
Lemma collect_matches_Ok (entries : list pyval) (ms : list match_entry) :
  collect entries = Ok ms ->
  ms = map (make_match float_repr term) (map m_item ms)
  /\ subseq (map m_item ms) (dict_items entries)
  /\ Forall kept (map m_item ms).
Proof.
  unfold collect. revert ms.
  induction entries as [ | v entries IH ]; intros ms H.
  - simpl in H. injection H as <-. repeat split; constructor.
  - destruct v; simpl in H; try (apply IH in H; exact H).
    destruct (date_filter parser_parse start_bound end_bound d) as [[ | ] | e] eqn:Ed;
      simpl in H; try discriminate.
    + destruct (category_filter artifact d) as [[ | ] | e] eqn:Ec; simpl in H; try discriminate.
      * destruct (term_filter float_repr term d) eqn:Et; simpl in H.
        -- apply bind_Ok_inv in H. destruct H as [ms' [Hms' Hms]].
           injection Hms as <-. destruct (IH _ Hms') as [Hshape [Hsub Hkept]].
           simpl. repeat split.
           ++ f_equal. exact Hshape.
           ++ apply subseq_keep. exact Hsub.
           ++ constructor; [ repeat split; assumption | exact Hkept ].
        -- destruct (IH _ H) as [Hshape [Hsub Hkept]].
           repeat split; [ exact Hshape | apply subseq_skip; exact Hsub | exact Hkept ].
      * destruct (IH _ H) as [Hshape [Hsub Hkept]].
        repeat split; [ exact Hshape | apply subseq_skip; exact Hsub | exact Hkept ].
    + destruct (IH _ H) as [Hshape [Hsub Hkept]].
      repeat split; [ exact Hshape | apply subseq_skip; exact Hsub | exact Hkept ].
Qed.

(** When the first two filters raise nothing on the dicts of the entries,
    the loop returns, and returns the records the filters keep. *)
Lemma collect_matches_filter (in_range of_type : dict -> bool) (entries : list pyval) :
  (forall item, In (PDict item) entries ->
     date_filter parser_parse start_bound end_bound item = Ok (in_range item)) ->
  (forall item, In (PDict item) entries -> in_range item = true ->
     category_filter artifact item = Ok (of_type item)) ->
  collect entries
  = Ok (map (make_match float_repr term)
          (filter (fun item => in_range item && of_type item && term_filter float_repr term item)
             (dict_items entries))).
Proof.
  unfold collect.
  induction entries as [ | v entries IH ]; intros Hd Hc; [ reflexivity | ].
  assert (IH' := IH (fun item Hin => Hd item (or_intror Hin))
                    (fun item Hin => Hc item (or_intror Hin))).
  destruct v; simpl; try exact IH'.
  rewrite (Hd d (or_introl eq_refl)). simpl.
  destruct (in_range d) eqn:Er; simpl; [ | exact IH' ].
  rewrite (Hc d (or_introl eq_refl) Er). simpl.
  destruct (of_type d); simpl; [ | exact IH' ].
  destruct (term_filter float_repr term d); simpl; [ | exact IH' ].
  rewrite IH'. reflexivity.
Qed.

(** The sort of the matches never raises. *)
Lemma sorted_matches (ms : list match_entry) :
  sorted relevance_key true ms = Ok (sort_desc score ms).
Proof.
  apply sorted_int_keys. apply Forall_forall. intros m _. reflexivity.
Qed.

Lemma ranked_matches_Ok (entries : list pyval) (ms : list match_entry) :
  ranked_matches parser_parse float_repr start_bound end_bound artifact term entries = Ok ms ->
  exists collected, collect entries = Ok collected /\ ms = sort_desc score collected.
Proof.
  unfold ranked_matches. intros H. apply bind_Ok_inv in H.
  destruct H as [collected [Hc Hs]]. exists collected. split; [ exact Hc | ].
  rewrite sorted_matches in Hs. injection Hs as <-. reflexivity.
Qed.

Lemma ranked_matches_of_collected (entries : list pyval) (collected : list match_entry) :
  collect entries = Ok collected ->
  ranked_matches parser_parse float_repr start_bound end_bound artifact term entries
  = Ok (sort_desc score collected).
Proof.
  unfold ranked_matches, collect. intros ->. simpl. apply sorted_matches.
Qed.

End QueryFacts.

(** C4.  In a search with a non-empty term, the relevance of every match is
    the number of non-overlapping occurrences of the lower-cased term in the
    lower-cased JSON text of its record; the matches are returned by
    descending relevance; and matches of equal relevance keep the order in
    which the loop collected them, which is the order of the stored records.
    The search returns such a list whenever the date filter and the
    artifact-type filter raise nothing on the stored records. *)
Theorem C4_ranking_by_term_count
    (parser_parse : string -> result parsed) (float_repr : spec_float -> string)
    (arguments : search_arguments) (t : string) (start_bound end_bound : option date)
    (entries : list pyval) :
  search_term arguments = Some t -> t <> EmptyString ->
  (forall in_range of_type : dict -> bool,
      (forall item, In (PDict item) entries ->
         date_filter parser_parse start_bound end_bound item = Ok (in_range item)) ->
      (forall item, In (PDict item) entries -> in_range item = true ->
         category_filter (artifact_type arguments) item = Ok (of_type item)) ->
      exists matches,
        ranked_matches parser_parse float_repr start_bound end_bound
          (artifact_type arguments) (lowered_term arguments) entries = Ok matches)
  /\ forall matches : list match_entry,
       ranked_matches parser_parse float_repr start_bound end_bound
         (artifact_type arguments) (lowered_term arguments) entries = Ok matches ->
       (forall m, In m matches ->
          exists positions,
            m_relevance m = List.length positions
            /\ non_overlapping_occurrences (lower t)
                 (lower (json_dumps float_repr (PDict (m_item m)))) positions)
       /\ descending score matches
       /\ exists collected,
            collect_matches parser_parse float_repr start_bound end_bound
              (artifact_type arguments) (lowered_term arguments) entries = Ok collected
            /\ subseq (map m_item collected) (dict_items entries)
            /\ Permutation matches collected
            /\ same_order_among_equals score matches collected.
Proof.
  intros Ht Hne.
  assert (Hterm : lowered_term arguments = lower t) by (unfold lowered_term; rewrite Ht; reflexivity).
  rewrite Hterm. split.
  - intros in_range of_type Hd Hc. eexists.
    apply ranked_matches_of_collected.
    apply (collect_matches_filter _ _ _ _ _ _ in_range of_type); assumption.
  - intros matches Hranked.
    apply ranked_matches_Ok in Hranked. destruct Hranked as [collected [Hc ->]].
    destruct (collect_matches_Ok _ _ _ _ _ _ _ _ Hc) as [Hshape [Hsub _]].
    split; [ | split ].
    + intros m Hm. apply sort_desc_In in Hm.
      rewrite Hshape in Hm. apply in_map_iff in Hm. destruct Hm as [it [<- _]].
      simpl. unfold relevance. rewrite (nonempty_true _ (lower_nonempty _ Hne)).
      apply str_count_counts, lower_nonempty, Hne.
    + apply sort_desc_descending.
    + exists collected. split; [ exact Hc | split; [ exact Hsub | split ] ].
      * apply sort_desc_perm.
      * apply sort_desc_stable.
Qed.

Lemma C4_ranking_by_term_count_witness :
  ranked_matches no_parser no_float_repr None None None (lowered_term (search_for "Alpha"))
    session_records
  = Ok [make_match no_float_repr "alpha" alpha_twice; make_match no_float_repr "alpha" alpha_once]
  /\ descending score
       [make_match no_float_repr "alpha" alpha_twice; make_match no_float_repr "alpha" alpha_once]
  /\ map m_relevance
       [make_match no_float_repr "alpha" alpha_twice; make_match no_float_repr "alpha" alpha_once]
     = [2%nat; 1%nat].
Proof.
  assert (H : ranked_matches no_parser no_float_repr None None
                (artifact_type (search_for "Alpha")) (lowered_term (search_for "Alpha"))
                session_records
              = Ok [make_match no_float_repr "alpha" alpha_twice;
                    make_match no_float_repr "alpha" alpha_once])
    by (vm_compute; reflexivity).
  split; [ exact H | split; [ | vm_compute; reflexivity ] ].
  refine (proj1 (proj2 (proj2 (C4_ranking_by_term_count no_parser no_float_repr
                                 (search_for "Alpha") "Alpha" None None session_records _ _)
                          _ H))).
  - reflexivity.
  - discriminate.
Defined.

(** ** Date ranges *)

Lemma before_start_spec (start_bound : option date) (d : date) :
  match start_bound with Some s => d <? s | None => false end = true
  <-> exists s, start_bound = Some s /\ d < s.
Proof.
  destruct start_bound as [s | ].
  - rewrite Z.ltb_lt. split.
    + intros H. exists s. split; [ reflexivity | exact H ].
    + intros [s' [Hs H]]. injection Hs as <-. exact H.
  - split; [ discriminate | intros [s [Hs _]]; discriminate Hs ].
Qed.

Lemma after_end_spec (end_bound : option date) (d : date) :
  match end_bound with Some e => e <? d | None => false end = true
  <-> exists e, end_bound = Some e /\ e < d.
Proof.
  destruct end_bound as [e | ].
  - rewrite Z.ltb_lt. split.
    + intros H. exists e. split; [ reflexivity | exact H ].
    + intros [e' [He H]]. injection He as <-. exact H.
  - split; [ discriminate | intros [e [He _]]; discriminate He ].
Qed.

Section DateFilter.

Variable parser_parse : string -> result parsed.

Lemma date_filter_without_bounds (item : dict) :
  date_filter parser_parse None None item = Ok true.
Proof.
  reflexivity.
Qed.

Lemma date_filter_with_bounds (start_bound end_bound : option date) (item : dict)
    (ts : option datetime) :
  start_bound <> None \/ end_bound <> None ->
  _parse_hindsight_timestamp parser_parse item = Ok ts ->
  exists kept,
    date_filter parser_parse start_bound end_bound item = Ok kept
    /\ (kept = false <->
        ts = None \/ exists dt, ts = Some dt /\ outside_bounds start_bound end_bound (date_of dt)).
Proof.
  intros Hb Hts.
  assert (Hd : date_filter parser_parse start_bound end_bound item =
               match ts with
               | None => Ok false
               | Some dt =>
                   if match start_bound with Some s => date_of dt <? s | None => false end
                   then Ok false
                   else if match end_bound with Some e => e <? date_of dt | None => false end
                        then Ok false else Ok true
               end).
  { unfold date_filter. rewrite Hts.
    destruct start_bound, end_bound; try reflexivity. destruct Hb; congruence. }
  rewrite Hd. clear Hd Hts Hb.
  destruct ts as [dt | ].
  - pose proof (before_start_spec start_bound (date_of dt)) as Hs.
    pose proof (after_end_spec end_bound (date_of dt)) as He.
    destruct (match start_bound with Some s => date_of dt <? s | None => false end).
    + exists false. split; [ reflexivity | ]. split; [ | reflexivity ].
      intros _. right. exists dt. split; [ reflexivity | ]. left. apply Hs. reflexivity.
    + destruct (match end_bound with Some e => e <? date_of dt | None => false end).
      * exists false. split; [ reflexivity | ]. split; [ | reflexivity ].
        intros _. right. exists dt. split; [ reflexivity | ]. right. apply He. reflexivity.
      * exists true. split; [ reflexivity | ]. split; [ discriminate | ].
        intros [Hn | [dt' [Heq [Ho | Ho]]]]; [ discriminate Hn | | ];
          injection Heq as <-; [ apply Hs in Ho | apply He in Ho ]; discriminate Ho.
  - exists false. split; [ reflexivity | ]. split; [ intros _; left; reflexivity | reflexivity ].
Qed.

End DateFilter.

Lemma search_without_matches
    (parser_parse : string -> result parsed) (float_repr : spec_float -> string)
    (fromisoformat : string -> option date)
    (arguments : search_arguments) (analysis_results : store) (a : analysis)
    (start_bound end_bound : option date) :
  find_analysis (analysis_id arguments) analysis_results = Some a ->
  parse_date_range fromisoformat (date_range arguments) = Ok (start_bound, end_bound) ->
  ranked_matches parser_parse float_repr start_bound end_bound (artifact_type arguments)
    (lowered_term arguments) (results a) = Ok [] ->
  search_analysis_results parser_parse float_repr fromisoformat arguments analysis_results
  = (Ok (Message (no_matches_text (analysis_id arguments))), analysis_results).
Proof.
  intros Hf Hp Hr. unfold search_analysis_results. rewrite Hf, Hp, Hr. reflexivity.
Qed.

(** C5 (the code departs from it).  The only record of this session has the
    timestamp -(10^20), a number out of range, which the claim has left out
    by a date range as a record without timestamp.  The normaliser raises
    the OverflowError of [datetime.fromtimestamp], which its [except] clause
    does not name; the date filter of the search calls the normaliser
    outside any [try]; the search for the records from 2099-01-01 on raises,
    and the tool answers "Error: ..." and not with an empty match list. *)
Theorem C5_out_of_range_timestamp_aborts_search
    (parser_parse : string -> result parsed) (float_repr : spec_float -> string) :
  _parse_hindsight_timestamp parser_parse [("timestamp", PInt (- (10 ^ 20)))]
  = Raise OverflowError
  /\ parse_date_range iso_date_only (date_range from_2099)
     = Ok (Some (days_from_civil 2099 1 1), None)
  /\ date_filter parser_parse (Some (days_from_civil 2099 1 1)) None
       [("timestamp", PInt (- (10 ^ 20)))]
     = Raise OverflowError
  /\ search_analysis_results parser_parse float_repr iso_date_only from_2099
       out_of_range_store
     = (Raise OverflowError, out_of_range_store)
  /\ handle_call_tool parser_parse float_repr iso_date_only
       (search_analysis_results_tool from_2099) out_of_range_store
     = (ErrorMessage OverflowError, out_of_range_store)
  /\ handle_call_tool parser_parse float_repr iso_date_only
       (search_analysis_results_tool from_2099)
       [("history_1",
         mk_analysis "History" "Chrome"
           [PDict alpha_once; PDict [("timestamp", PInt (- (10 ^ 20)))]])]
     = (ErrorMessage OverflowError,
        [("history_1",
          mk_analysis "History" "Chrome"
            [PDict alpha_once; PDict [("timestamp", PInt (- (10 ^ 20)))]])]).
Proof.
  repeat split; vm_compute; reflexivity.
Qed.

(** X15.  With a date range that gives at least one bound, a record whose
    timestamp the normaliser returns is left out by the date filter exactly
    when that timestamp is None or its UTC date lies before the start or
    after the end, whichever are given (the bounds themselves are kept); with
    no bound no record is left out, and no timestamp is asked for; and when
    the filter leaves out every record, raising on none, the match list is
    empty and the search answers with its "No matches found" message. *)
Theorem date_filter_on_normalised_records
    (parser_parse : string -> result parsed) (float_repr : spec_float -> string)
    (fromisoformat : string -> option date) :
  (forall (start_bound end_bound : option date) (item : dict) (ts : option datetime),
      start_bound <> None \/ end_bound <> None ->
      _parse_hindsight_timestamp parser_parse item = Ok ts ->
      exists kept,
        date_filter parser_parse start_bound end_bound item = Ok kept
        /\ (kept = false <->
            ts = None
            \/ exists dt, ts = Some dt /\ outside_bounds start_bound end_bound (date_of dt)))
  /\ (forall item : dict, date_filter parser_parse None None item = Ok true)
  /\ (forall (arguments : search_arguments) (analysis_results : store) (a : analysis)
             (start_bound end_bound : option date),
        find_analysis (analysis_id arguments) analysis_results = Some a ->
        parse_date_range fromisoformat (date_range arguments) = Ok (start_bound, end_bound) ->
        (forall item, In (PDict item) (results a) ->
           date_filter parser_parse start_bound end_bound item = Ok false) ->
        ranked_matches parser_parse float_repr start_bound end_bound
          (artifact_type arguments) (lowered_term arguments) (results a) = Ok []
        /\ search_analysis_results parser_parse float_repr fromisoformat arguments
             analysis_results
           = (Ok (Message (no_matches_text (analysis_id arguments))), analysis_results)).
Proof.
  split; [ | split ].
  - intros. eapply date_filter_with_bounds; eassumption.
  - intros. reflexivity.
  - intros arguments analysis_results a start_bound end_bound Hf Hp Hall.
    assert (Hr : ranked_matches parser_parse float_repr start_bound end_bound
                   (artifact_type arguments) (lowered_term arguments) (results a) = Ok []).
    { erewrite ranked_matches_of_collected.
      2: { apply (collect_matches_filter _ _ _ _ _ _ (fun _ => false) (fun _ => true)).
           - exact Hall.
           - intros; discriminate. }
      simpl. induction (dict_items (results a)); [ reflexivity | assumption ]. }
    split; [ exact Hr | ].
    eapply search_without_matches; eassumption.
Qed.

Lemma date_filter_on_normalised_records_witness :
  find_analysis (analysis_id from_2099) session_store
  = Some (mk_analysis "History" "Chrome" session_records)
  /\ parse_date_range iso_date_only (date_range from_2099)
     = Ok (Some (days_from_civil 2099 1 1), None)
  /\ search_analysis_results no_parser no_float_repr iso_date_only from_2099 session_store
     = (Ok (Message (no_matches_text "history_1")), session_store).
Proof.
  split; [ reflexivity | split; [ vm_compute; reflexivity | ] ].
  refine (proj2 (proj2 (proj2 (date_filter_on_normalised_records no_parser no_float_repr
                                 iso_date_only))
                   from_2099 session_store (mk_analysis "History" "Chrome" session_records)
                   (Some (days_from_civil 2099 1 1)) None _ _ _)).
  - reflexivity.
  - vm_compute; reflexivity.
  - intros item Hin. simpl in Hin.
    destruct Hin as [H | [H | [H | [H | []]]]]; try discriminate H;
      injection H as <-; vm_compute; reflexivity.
Defined.

(** ** Unknown sessions and unreadable dates *)

Section ToolBoundary.

Variable parser_parse : string -> result parsed.
Variable float_repr : spec_float -> string.
Variable fromisoformat : string -> option date.





End ToolBoundary.




(** ** Searching with nothing to filter on *)

(** C7, as the code has it.  With an empty term, no artifact type and no
    date range, the search returns one match for every stored entry that is a
    dict, in the stored order and each of relevance 1; the matches are as
    many as the entries when all of these are dicts. *)
Theorem C7_empty_search_returns_every_dict
    (parser_parse : string -> result parsed) (float_repr : spec_float -> string)
    (fromisoformat : string -> option date)
    (arguments : search_arguments) (entries : list pyval) :
  search_term arguments = Some EmptyString \/ search_term arguments = None ->
  artifact_type arguments = None ->
  date_range arguments = None ->
  parse_date_range fromisoformat (date_range arguments) = Ok (None, None)
  /\ exists matches,
       ranked_matches parser_parse float_repr None None (artifact_type arguments)
         (lowered_term arguments) entries = Ok matches
       /\ map m_item matches = dict_items entries
       /\ List.length matches = List.length (dict_items entries)
       /\ Forall (fun m => m_relevance m = 1%nat) matches
       /\ (forallb is_dict entries = true -> List.length matches = List.length entries).
Proof.
  intros Hterm Hart Hrange. rewrite Hart, Hrange.
  assert (Ht : lowered_term arguments = EmptyString)
    by (unfold lowered_term; destruct Hterm as [-> | ->]; reflexivity).
  rewrite Ht. split; [ reflexivity | ].
  exists (map (make_match float_repr EmptyString) (dict_items entries)).
  assert (Hone : Forall (fun m => m_relevance m = 1%nat)
                   (map (make_match float_repr EmptyString) (dict_items entries)))
    by (apply Forall_forall; intros m Hm; apply in_map_iff in Hm;
        destruct Hm as [it [<- _]]; reflexivity).
  split; [ | split; [ | split; [ | split ] ] ].
  - erewrite ranked_matches_of_collected.
    2: { apply (collect_matches_filter _ _ _ _ _ _ (fun _ => true) (fun _ => true));
         intros; reflexivity. }
    replace (filter _ (dict_items entries)) with (dict_items entries).
    + f_equal. apply sort_desc_constant with (c := 1).
      eapply Forall_impl; [ | exact Hone ]. intros m Hm. unfold score. rewrite Hm. reflexivity.
    + symmetry. apply filter_keeps_all. intros it. reflexivity.
  - rewrite map_map. simpl. apply map_id.
  - apply length_map.
  - exact Hone.
  - intros Hall. rewrite length_map.
    rewrite <- (dict_items_all_dicts _ Hall) at 2. rewrite length_map. reflexivity.
Qed.

Lemma C7_empty_search_returns_every_dict_witness :
  ranked_matches no_parser no_float_repr None None None EmptyString scenario_A
  = Ok [make_match no_float_repr EmptyString record_a;
        make_match no_float_repr EmptyString record_b]
  /\ forallb is_dict scenario_A = true
  /\ exists matches,
       ranked_matches no_parser no_float_repr None None None EmptyString scenario_A = Ok matches
       /\ List.length matches = List.length scenario_A.
Proof.
  split; [ vm_compute; reflexivity | split; [ reflexivity | ] ].
  destruct (C7_empty_search_returns_every_dict no_parser no_float_repr iso_date_only
              (mk_search_arguments "history_1" (Some EmptyString) None None) scenario_A)
    as [_ [matches [Hr [_ [_ [_ Hlen]]]]]]; try reflexivity.
  - left. reflexivity.
  - exists matches. split; [ exact Hr | apply Hlen; reflexivity ].
Defined.

(** C7 as stated fails: the session holds four entries, one of them the
    number 5, and the empty search returns three matches. *)
Lemma C7_non_dict_entry_is_not_matched :
  List.length session_records = 4%nat
  /\ ranked_matches no_parser no_float_repr None None None EmptyString session_records
     = Ok [make_match no_float_repr EmptyString alpha_once;
           make_match no_float_repr EmptyString no_alpha;
           make_match no_float_repr EmptyString alpha_twice].
Proof.
  split; vm_compute; reflexivity.
Qed.

(** ** The artifact-type filter *)

Lemma category_of_default (item : dict) (default : string) :
  category_of item default
  = if truthy (py_or (py_or (get item "artifact") (get item "type")) (get item "category"))
    then py_or (py_or (get item "artifact") (get item "type")) (get item "category")
    else PStr default.
Proof.
  reflexivity.
Qed.

Lemma category_of_named (item : dict) :
  truthy (category_of item EmptyString) = true ->
  category_of item "unknown" = category_of item EmptyString.
Proof.
  rewrite !category_of_default.
  destruct (truthy (py_or (py_or (get item "artifact") (get item "type")) (get item "category")));
    [ reflexivity | discriminate ].
Qed.

Lemma category_of_unnamed (item : dict) :
  truthy (category_of item EmptyString) = false ->
  category_of item EmptyString = PStr EmptyString
  /\ category_of item "unknown" = PStr "unknown".
Proof.
  rewrite !category_of_default.
  destruct (truthy (py_or (py_or (get item "artifact") (get item "type")) (get item "category")))
    eqn:E; [ | split; reflexivity ].
  rewrite E. discriminate.
Qed.

Lemma str_contains_in_empty (sub : string) :
  sub <> EmptyString -> str_contains sub EmptyString = false.
Proof.
  destruct sub; [ contradiction | reflexivity ].
Qed.

Section CategoryFilter.

Variable parser_parse : string -> result parsed.
Variable float_repr : spec_float -> string.
Variables start_bound end_bound : option date.
Variable term : string.

(** What a search with an artifact type returns is among what the same
    search without it returns, in the same order. *)
Lemma collect_matches_narrows (wanted : option string) (entries : list pyval) :
  forall ms,
    collect_matches parser_parse float_repr start_bound end_bound wanted term entries = Ok ms ->
    exists all_ms,
      collect_matches parser_parse float_repr start_bound end_bound None term entries
      = Ok all_ms
      /\ subseq ms all_ms.
Proof.
  induction entries as [ | v entries IH ]; intros ms H.
  - simpl in H. injection H as <-. exists []. split; [ reflexivity | constructor ].
  - destruct v; simpl in H |- *; try (apply IH; exact H).
    destruct (date_filter parser_parse start_bound end_bound d) as [[ | ] | e];
      simpl in H |- *; try discriminate; [ | apply IH; exact H ].
    destruct (category_filter wanted d) as [[ | ] | e]; simpl in H; try discriminate.
    + destruct (term_filter float_repr term d); simpl in H |- *; [ | apply IH; exact H ].
      apply bind_Ok_inv in H. destruct H as [ms' [Hms' Hms]]. injection Hms as <-.
      destruct (IH _ Hms') as [all_ms [-> Hsub]]. simpl.
      eexists. split; [ reflexivity | apply subseq_keep; exact Hsub ].
    + destruct (IH _ H) as [all_ms [-> Hsub]].
      destruct (term_filter float_repr term d); simpl.
      * eexists. split; [ reflexivity | apply subseq_skip; exact Hsub ].
      * eexists. split; [ reflexivity | exact Hsub ].
Qed.

End CategoryFilter.

(** C8, as the code has it.  The filter compares the lower-cased artifact
    type with the lower-cased first non-empty value among the fields
    artifact, type and category, and with the empty string when there is
    none: a record with such a value, a string, passes exactly when the value
    contains the type; that value is the category shown for the record; a
    record with no such value is shown as "unknown" and passes no artifact
    type.  What a search with an artifact type returns is among what the same
    search without one returns. *)
Theorem C8_artifact_type_filter
    (parser_parse : string -> result parsed) (float_repr : spec_float -> string)
    (wanted : string) :
  wanted <> EmptyString ->
  (forall (item : dict) (c : string),
      category_of item EmptyString = PStr c ->
      category_filter (Some wanted) item = Ok (str_contains (lower wanted) (lower c)))
  /\ (forall item : dict,
        truthy (category_of item EmptyString) = true ->
        category_of item "unknown" = category_of item EmptyString)
  /\ (forall item : dict,
        truthy (category_of item EmptyString) = false ->
        category_of item "unknown" = PStr "unknown"
        /\ category_filter (Some wanted) item = Ok false)
  /\ (forall (start_bound end_bound : option date) (term : string) (entries : list pyval)
             (matches : list match_entry),
        ranked_matches parser_parse float_repr start_bound end_bound (Some wanted) term entries
        = Ok matches ->
        exists all_matches,
          ranked_matches parser_parse float_repr start_bound end_bound None term entries
          = Ok all_matches
          /\ forall m, In m matches -> In m all_matches).
Proof.
  intros Hne. split; [ | split; [ | split ] ].
  - intros item c Hc. unfold category_filter.
    rewrite (nonempty_true _ Hne), Hc. reflexivity.
  - apply category_of_named.
  - intros item Hf. destruct (category_of_unnamed _ Hf) as [He Hu].
    split; [ exact Hu | ]. unfold category_filter.
    rewrite (nonempty_true _ Hne), He. unfold py_lower, bind.
    change (lower EmptyString) with EmptyString.
    rewrite (str_contains_in_empty _ (lower_nonempty _ Hne)). reflexivity.
  - intros start_bound end_bound term entries matches H.
    apply ranked_matches_Ok in H. destruct H as [collected [Hc ->]].
    destruct (collect_matches_narrows _ _ _ _ _ _ _ _ Hc) as [all_ms [Hall Hsub]].
    exists (sort_desc score all_ms). split.
    + apply ranked_matches_of_collected, Hall.
    + intros m Hm. apply sort_desc_In. apply sort_desc_In in Hm.
      eapply subseq_In; eassumption.
Qed.

Lemma C8_artifact_type_filter_witness :
  category_of alpha_twice EmptyString = PStr "chrome:history:URL"
  /\ category_filter (Some "Url") alpha_twice = Ok true.
Proof.
  split; [ reflexivity | ].
  refine (proj1 (C8_artifact_type_filter no_parser no_float_repr "Url" _)
            alpha_twice "chrome:history:URL" eq_refl).
  discriminate.
Defined.

(** C8 as stated fails: this record has none of the three fields, its
    category is the default "unknown", which contains the artifact type
    "unknown", and the filter leaves the record out. *)
Lemma C8_default_category_is_not_matched :
  category_of no_alpha "unknown" = PStr "unknown"
  /\ str_contains (lower "unknown") (lower "unknown") = true
  /\ category_filter (Some "unknown") no_alpha = Ok false.
Proof.
  repeat split; vm_compute; reflexivity.
Qed.

(** A category that is not a string has no [lower]: the filter raises. *)
Lemma category_filter_raises_on_number :
  category_filter (Some "url") [("type", PInt 5)] = Raise AttributeError.
Proof.
  reflexivity.
Qed.

(** ** The summariser *)

Lemma map_result_pure {A B : Type} (f : A -> result B) (g : A -> B) (l : list A) :
  Forall (fun a => f a = Ok (g a)) l -> map_result f l = Ok (map g l).
Proof.
  induction 1 as [ | a l Ha _ IH ]; [ reflexivity | ].
  simpl. rewrite Ha, IH. reflexivity.
Qed.

Lemma countable_key (u : dict) : countable u -> visit_count_key u = PInt (visit_count u).
Proof.
  intros [[z Hz] _]. unfold visit_count. rewrite Hz. reflexivity.
Qed.

Lemma countable_render (u : dict) : countable u -> render_url u = Ok (truncated (url_text u)).
Proof.
  intros [_ [s Hs]]. unfold render_url, url_text. rewrite Hs. reflexivity.
Qed.

Lemma firstn_Forall {A : Type} (P : A -> Prop) (n : nat) (l : list A) :
  Forall P l -> Forall P (firstn n l).
Proof.
  intros H. apply Forall_forall. intros a Ha.
  rewrite Forall_forall in H. apply H.
  rewrite <- (firstn_skipn n l). apply in_or_app. left. exact Ha.
Qed.

(** C9, as the code has it.  The "Top visited" line is drawn from the
    records that carry a url field: when their visit counts are integers (a
    record without one counting 0) and their urls strings, the line lists the
    three of them with the highest counts, highest first and equal counts in
    the stored order, each as the first 50 characters of its url followed by
    "..." when the url is longer; there is no line when no record carries a
    url.  For the two records of scenario A the line lists b.com before
    a.com. *)
Theorem C9_top_visited (items_list : list pyval) :
  Forall countable (url_records items_list) ->
  (exists ranked,
      Permutation ranked (url_records items_list)
      /\ descending visit_count ranked
      /\ same_order_among_equals visit_count ranked (url_records items_list)
      /\ (forall a b, In a (firstn 3 ranked) -> In b (skipn 3 ranked) ->
            visit_count b <= visit_count a)
      /\ top_visited_line items_list
         = Ok match url_records items_list with
              | [] => None
              | _ => Some (map (fun u => truncated (url_text u)) (firstn 3 ranked))
              end)
  /\ top_visited_line scenario_A = Ok (Some ["http://b.com"; "http://a.com"]).
Proof.
  intros Hall. split; [ | reflexivity ].
  exists (sort_desc visit_count (url_records items_list)).
  split; [ apply sort_desc_perm | ].
  split; [ apply sort_desc_descending | ].
  split; [ apply sort_desc_stable | ].
  split; [ intros a b; apply descending_firstn_dominates, sort_desc_descending | ].
  unfold top_visited_line. fold (url_records items_list).
  assert (Hsorted : sorted visit_count_key true (url_records items_list)
                    = Ok (sort_desc visit_count (url_records items_list))).
  { apply sorted_int_keys. eapply Forall_impl; [ | exact Hall ].
    intros u Hu. apply countable_key, Hu. }
  assert (Hranked : Forall countable (sort_desc visit_count (url_records items_list))).
  { eapply Permutation_Forall; [ symmetry; apply sort_desc_perm | exact Hall ]. }
  pose proof (sort_desc_length visit_count (url_records items_list)) as Hlen.
  destruct (url_records items_list) as [ | u urls ] eqn:Eurls; [ reflexivity | ].
  rewrite Hsorted. unfold bind at 1.
  assert (Hshown : map_result render_url (firstn 3 (sort_desc visit_count (u :: urls)))
                   = Ok (map (fun u => truncated (url_text u))
                           (firstn 3 (sort_desc visit_count (u :: urls))))).
  { apply map_result_pure, firstn_Forall. eapply Forall_impl; [ | exact Hranked ].
    intros x Hx. apply countable_render, Hx. }
  destruct (sort_desc visit_count (u :: urls)) as [ | r ranked ]; [ discriminate Hlen | ].
  change (firstn 3 (r :: ranked)) with (r :: firstn 2 ranked) in *.
  cbv iota. rewrite Hshown. reflexivity.
Qed.

Lemma C9_top_visited_witness :
  Forall countable (url_records scenario_A)
  /\ top_visited_line scenario_A = Ok (Some ["http://b.com"; "http://a.com"]).
Proof.
  assert (H : Forall countable (url_records scenario_A)).
  { repeat constructor.
    - exists 5. reflexivity.
    - exists "http://a.com". reflexivity.
    - exists 9. reflexivity.
    - exists "http://b.com". reflexivity. }
  split; [ exact H | exact (proj2 (C9_top_visited scenario_A H)) ].
Defined.

(** C9 as stated fails: a record with a url and no visit count is listed,
    and a record with a visit count and no url is not. *)
Lemma C9_line_is_drawn_from_url_records :
  contains_key "visit_count" no_alpha = false
  /\ top_visited_line [PDict no_alpha] = Ok (Some ["http://c.com"])
  /\ contains_key "visit_count" count_only = true
  /\ top_visited_line [PDict count_only] = Ok None
  /\ top_visited_line [PDict count_only; PDict record_a] = Ok (Some ["http://a.com"]).
Proof.
  repeat split; vm_compute; reflexivity.
Qed.

(** Visit counts of different kinds cannot be ordered: the summary raises. *)
Lemma top_visited_raises_on_mixed_counts :
  top_visited_line
    [PDict [("url", PStr "http://a.com"); ("visit_count", PStr "5")]; PDict record_b]
  = Raise TypeError.
Proof.
  reflexivity.
Qed.

(** ** Entries that are not dicts *)

Lemma counted_bucket_add (category : pyval) (buckets : list (pyval * nat)) :
  counted (bucket_add category buckets) = S (counted buckets).
Proof.
  unfold counted. induction buckets as [ | [k n] rest IH ]; [ reflexivity | ].
  simpl. destruct (py_eq k category); simpl; [ reflexivity | ].
  rewrite IH. lia.
Qed.

Lemma count_categories_counted (items_list : list pyval) :
  forall buckets counts,
    count_categories items_list buckets = Ok counts ->
    counted counts = (counted buckets + List.length (dict_items items_list))%nat.
Proof.
  induction items_list as [ | v rest IH ]; intros buckets counts H.
  - simpl in H. injection H as <-. simpl. lia.
  - destruct v; simpl in H; try (rewrite (IH _ _ H); simpl; lia).
    destruct (hashable (category_of d "unknown")); [ | discriminate ].
    rewrite (IH _ _ H), counted_bucket_add. simpl. lia.
Qed.

Lemma count_categories_returns (items_list : list pyval) :
  forall buckets,
    Forall (fun it => hashable (category_of it "unknown") = true) (dict_items items_list) ->
    exists counts, count_categories items_list buckets = Ok counts.
Proof.
  induction items_list as [ | v rest IH ]; intros buckets H.
  - eexists. reflexivity.
  - destruct v; simpl in H |- *; try (apply IH; exact H).
    inversion H as [ | ? ? Hd Hrest ]; subst. rewrite Hd. apply IH, Hrest.
Qed.

Lemma counted_insert_desc (line : pyval * nat) (lines : list (pyval * nat)) :
  counted (insert_desc count_rank line lines) = (snd line + counted lines)%nat.
Proof.
  unfold counted. induction lines as [ | y rest IH ]; [ reflexivity | ].
  simpl. destruct (count_rank line <? count_rank y); simpl; [ | reflexivity ].
  rewrite IH. lia.
Qed.

Lemma counted_sort_desc (lines : list (pyval * nat)) :
  counted (sort_desc count_rank lines) = counted lines.
Proof.
  induction lines as [ | x rest IH ]; [ reflexivity | ].
  simpl. rewrite counted_insert_desc, IH. reflexivity.
Qed.

Lemma counted_firstn (n : nat) (lines : list (pyval * nat)) :
  (counted (firstn n lines) <= counted lines)%nat.
Proof.
  unfold counted. revert lines.
  induction n as [ | n IH ]; intros lines; [ simpl; lia | ].
  destruct lines as [ | x rest ]; simpl; [ lia | ]. specialize (IH rest). lia.
Qed.

Lemma sorted_buckets (buckets : list (pyval * nat)) :
  sorted count_key true buckets = Ok (sort_desc count_rank buckets).
Proof.
  apply sorted_int_keys. apply Forall_forall. intros line _. reflexivity.
Qed.

Lemma entries_split (entries : list pyval) :
  List.length entries
  = (List.length (dict_items entries)
     + List.length (filter (fun v => negb (is_dict v)) entries))%nat.
Proof.
  induction entries as [ | v rest IH ]; [ reflexivity | ].
  destruct v; simpl; lia.
Qed.

Lemma create_analysis_summary_Ok (float_repr : spec_float -> string)
    (items_list : list pyval) (s : summary) :
  create_analysis_summary float_repr items_list = Ok s ->
  total_items s = List.length items_list
  /\ exists buckets,
       count_categories items_list [] = Ok buckets
       /\ category_lines s = firstn 10 (sort_desc count_rank buckets).
Proof.
  unfold create_analysis_summary. intros H.
  apply bind_Ok_inv in H. destruct H as [buckets [Hb H]].
  rewrite sorted_buckets in H. simpl in H.
  apply bind_Ok_inv in H. destruct H as [visited [_ H]].
  apply bind_Ok_inv in H. destruct H as [downloads [_ H]].
  injection H as <-. simpl. split; [ reflexivity | ].
  exists buckets. split; [ exact Hb | reflexivity ].
Qed.

(** C10.  Entries of the stored results that are not dicts are skipped by
    the search: it returns what it returns on the dicts alone, and every
    match is one of the stored dicts.  The summary counts categories over the
    dicts only, while its total is the number of all entries: the total is
    the sum of all category counts plus the number of entries that are not
    dicts, and for the session of four entries, one of them a number, the
    total is 4 and the category counts add up to 3.  The categories are
    counted, with no error, whenever no category is a list or a dict. *)
Theorem C10_non_dict_entries
    (parser_parse : string -> result parsed) (float_repr : spec_float -> string) :
  (forall (start_bound end_bound : option date) (artifact : option string) (term : string)
          (entries : list pyval),
      ranked_matches parser_parse float_repr start_bound end_bound artifact term entries
      = ranked_matches parser_parse float_repr start_bound end_bound artifact term
          (map PDict (dict_items entries)))
  /\ (forall (start_bound end_bound : option date) (artifact : option string) (term : string)
             (entries : list pyval) (matches : list match_entry),
        ranked_matches parser_parse float_repr start_bound end_bound artifact term entries
        = Ok matches ->
        forall m, In m matches -> In (PDict (m_item m)) entries)
  /\ (forall (items_list : list pyval) (s : summary),
        create_analysis_summary float_repr items_list = Ok s ->
        total_items s = List.length items_list
        /\ exists buckets,
             count_categories items_list [] = Ok buckets
             /\ counted buckets = List.length (dict_items items_list)
             /\ (counted (category_lines s) <= counted buckets)%nat
             /\ total_items s
                = (counted buckets
                   + List.length (filter (fun v => negb (is_dict v)) items_list))%nat)
  /\ (forall items_list : list pyval,
        Forall (fun it => hashable (category_of it "unknown") = true) (dict_items items_list) ->
        exists buckets, count_categories items_list [] = Ok buckets)
  /\ (exists s,
        create_analysis_summary float_repr session_records = Ok s
        /\ total_items s = 4%nat
        /\ counted (category_lines s) = 3%nat).
Proof.
  split; [ | split; [ | split; [ | split ] ] ].
  - intros. unfold ranked_matches. rewrite collect_matches_skips_non_dicts. reflexivity.
  - intros start_bound end_bound artifact term entries matches H m Hm.
    apply ranked_matches_Ok in H. destruct H as [collected [Hc ->]].
    apply sort_desc_In in Hm.
    destruct (collect_matches_Ok _ _ _ _ _ _ _ _ Hc) as [_ [Hsub _]].
    apply dict_items_In. eapply subseq_In; [ exact Hsub | ].
    apply in_map. exact Hm.
  - intros items_list s H.
    destruct (create_analysis_summary_Ok _ _ _ H) as [Htotal [buckets [Hb Hlines]]].
    split; [ exact Htotal | ]. exists buckets.
    pose proof (count_categories_counted _ _ _ Hb) as Hcount. simpl in Hcount.
    split; [ exact Hb | split; [ exact Hcount | split ] ].
    + rewrite Hlines, <- (counted_sort_desc buckets). apply counted_firstn.
    + rewrite Htotal, Hcount. apply entries_split.
  - intros items_list. apply count_categories_returns.
  - eexists. split; [ vm_compute; reflexivity | split; reflexivity ].
Qed.

Lemma C10_non_dict_entries_witness :
  create_analysis_summary no_float_repr session_records
  = Ok (mk_summary [(PStr "unknown", 2%nat); (PStr "chrome:history:URL", 1%nat)]
          (Some ["http://a.com"; "http://c.com"; "http://b.com/alpha/ALPHA"]) None 4)
  /\ exists buckets,
       count_categories session_records [] = Ok buckets
       /\ counted buckets = 3%nat
       /\ List.length session_records = (counted buckets + 1)%nat.
Proof.
  assert (H : create_analysis_summary no_float_repr session_records
              = Ok (mk_summary [(PStr "unknown", 2%nat); (PStr "chrome:history:URL", 1%nat)]
                      (Some ["http://a.com"; "http://c.com"; "http://b.com/alpha/ALPHA"])
                      None 4))
    by (vm_compute; reflexivity).
  split; [ exact H | ].
  destruct (proj1 (proj2 (proj2 (C10_non_dict_entries no_parser no_float_repr))) _ _ H)
    as [_ [buckets [Hb [Hcount [_ Htotal]]]]].
  exists buckets. split; [ exact Hb | split; [ exact Hcount | ] ].
  simpl in Htotal. exact Htotal.
Defined.

(** * Further properties of the code *)

(** ** The normaliser on integers of seconds *)

Lemma py_gt_int_int (a b : Z) : py_gt (NInt a) (NInt b) = (b <? a).
Proof.
  unfold py_gt, number_compare.
  destruct (Z.compare_spec a b), (Z.ltb_spec b a); try reflexivity; lia.
Qed.

Lemma py_gt_int_threshold (z k : Z) (m : positive) (e : Z) :
  float_of_Z k = S754_finite false m e -> e < 0 -> Z.pos m = k * 2 ^ (- e) ->
  py_gt (NInt z) (NFloat (float_of_Z k)) = (k <? z).
Proof.
  intros Hf He Hm. unfold py_gt, number_compare, Z_compare_float. rewrite Hf.
  destruct (Z.leb_spec 0 e); [ lia | ].
  assert (Hp : 0 < 2 ^ (- e)) by (apply Z.pow_pos_nonneg; lia).
  rewrite Hm.
  destruct (Z.compare_spec (z * 2 ^ (- e)) (k * 2 ^ (- e))), (Z.ltb_spec k z);
    try reflexivity; nia.
Qed.

Lemma py_gt_int_1e15 (z : Z) : py_gt (NInt z) lit_1e15 = (10 ^ 15 <? z).
Proof.
  unfold lit_1e15.
  eapply py_gt_int_threshold; [ vm_compute; reflexivity | reflexivity | reflexivity ].
Qed.

Lemma py_gt_int_1e12 (z : Z) : py_gt (NInt z) lit_1e12 = (10 ^ 12 <? z).
Proof.
  unfold lit_1e12.
  eapply py_gt_int_threshold; [ vm_compute; reflexivity | reflexivity | reflexivity ].
Qed.

Lemma py_gt_int_1e10 (z : Z) : py_gt (NInt z) lit_1e10 = (10 ^ 10 <? z).
Proof.
  unfold lit_1e10.
  eapply py_gt_int_threshold; [ vm_compute; reflexivity | reflexivity | reflexivity ].
Qed.

(** An integer up to 1e10 is in no bracket and below the epoch offset. *)
Lemma numeric_seconds_small_int (z : Z) :
  z <= 10 ^ 10 -> numeric_seconds (NInt z) = Ok (NInt z).
Proof.
  intros Hz. unfold numeric_seconds, reduce_unit.
  rewrite py_gt_int_1e15, py_gt_int_1e12, py_gt_int_1e10.
  destruct (Z.ltb_spec (10 ^ 15) z); [ lia | ].
  destruct (Z.ltb_spec (10 ^ 12) z); [ lia | ].
  destruct (Z.ltb_spec (10 ^ 10) z); [ lia | ].
  unfold bind, correct_epoch. rewrite py_gt_int_int.
  destruct (Z.ltb_spec FILETIME_OFFSET z); [ unfold FILETIME_OFFSET in *; lia | reflexivity ].
Qed.

(** The days of the years 1 to 9999. *)
Lemma year_of_date_bounds (days : Z) :
  -719162 <= days <= 2932896 -> 1 <= year_of_date days <= 9999.
Proof.
  intros H. unfold year_of_date, civil_from_days. cbv zeta. cbn [fst].
  set (z := days + 719468).
  set (era := z / 146097).
  set (doe := z - era * 146097).
  set (yoe := (doe - doe / 1460 + doe / 36524 - doe / 146096) / 365).
  set (doy := doe - (365 * yoe + yoe / 4 - yoe / 100)).
  set (mp := (5 * doy + 2) / 153).
  assert (Hz : 306 <= z <= 3652364) by (unfold z; lia).
  assert (Hera : 0 <= era <= 24) by (unfold era; Z.to_euclidean_division_equations; lia).
  assert (Hdoe : 0 <= doe <= 146096)
    by (unfold doe, era; Z.to_euclidean_division_equations; lia).
  assert (Hyoe : 0 <= yoe <= 399) by (unfold yoe; Z.to_euclidean_division_equations; lia).
  assert (Hlow : era = 0 -> yoe = 0 -> 10 <= mp).
  { intros He Hy. unfold mp, doy. rewrite Hy. change (365 * 0 + 0 / 4 - 0 / 100) with 0.
    assert (306 <= doe) by (unfold doe; lia).
    Z.to_euclidean_division_equations; lia. }
  assert (Hhigh : era = 24 -> yoe = 399 -> mp < 10).
  { intros He Hy. unfold mp, doy. rewrite Hy.
    change (365 * 399 + 399 / 4 - 399 / 100) with 145731.
    assert (doe <= 146036) by (unfold doe; lia).
    Z.to_euclidean_division_equations; lia. }
  assert (Hdoy : 0 <= doy <= 365)
    by (unfold doy, yoe; Z.to_euclidean_division_equations; lia).
  assert (Hmp : 0 <= mp <= 11) by (unfold mp; Z.to_euclidean_division_equations; lia).
  destruct (mp <? 10) eqn:E2; [ apply Z.ltb_lt in E2 | apply Z.ltb_ge in E2 ].
  - destruct (mp + 3 <=? 2) eqn:E; [ apply Z.leb_le in E | apply Z.leb_gt in E ]; lia.
  - destruct (mp - 9 <=? 2) eqn:E; [ apply Z.leb_le in E | apply Z.leb_gt in E ]; lia.
Qed.

(** [datetime.fromtimestamp] of an integer of seconds within the years 1 to
    9999 is that instant. *)
Lemma fromtimestamp_utc_int (z : Z) :
  -62135596800 <= z <= 253402300799 ->
  fromtimestamp_utc (NInt z) = Ok (mk_datetime z 0).
Proof.
  intros Hz. unfold fromtimestamp_utc, timestamp_to_timeval, time_t_min, time_t_max.
  destruct (Z.ltb_spec z (- 2 ^ 63)); [ lia | ].
  destruct (Z.ltb_spec (2 ^ 63 - 1) z); [ lia | ].
  cbn [orb bind fst snd]. unfold datetime_from_timet_and_us.
  assert (Hy : 1 <= year_of_date (z / 86400) <= 9999).
  { apply year_of_date_bounds. Z.to_euclidean_division_equations; lia. }
  destruct (Z.ltb_spec (year_of_date (z / 86400) - 1900) (- 2 ^ 31)); [ lia | ].
  destruct (Z.ltb_spec (2 ^ 31 - 1) (year_of_date (z / 86400) - 1900)); [ lia | ].
  destruct (Z.ltb_spec (year_of_date (z / 86400)) 1); [ lia | ].
  destruct (Z.ltb_spec 9999 (year_of_date (z / 86400))); [ lia | ].
  reflexivity.
Qed.

Lemma probe_single_field (parser_parse : string -> result parsed) (keys : list string)
    (key : string) (v : pyval) (dt : datetime) :
  In key keys -> truthy v = true -> convert parser_parse v = Ok (Some dt) ->
  probe parser_parse keys [(key, v)] = Ok (Some dt).
Proof.
  intros Hin Ht Hc. induction keys as [ | k rest IH ]; [ contradiction | ].
  cbn [probe lookup]. destruct (String.eqb_spec k key) as [-> | Hne].
  - rewrite Ht, Hc. reflexivity.
  - apply IH. destruct Hin as [-> | Hin]; [ contradiction | exact Hin ].
Qed.

Lemma probe_zero_field (parser_parse : string -> result parsed) (keys : list string)
    (key : string) :
  probe parser_parse keys [(key, PInt 0)] = Ok None.
Proof.
  induction keys as [ | k rest IH ]; [ reflexivity | ].
  cbn [probe lookup]. destruct (String.eqb k key); exact IH.
Qed.

(** X1.  An integer of seconds between the first instant of year 1 and
    1e10, other than 0, is neither divided nor corrected, and a record whose
    only field is one of the five candidates with that integer gets exactly
    that Unix instant as its timestamp.  The integer 0 is an empty value: the
    record gets no timestamp. *)
Theorem int_seconds_are_kept (parser_parse : string -> result parsed) (z : Z) :
  z <> 0 -> -62135596800 <= z <= 10 ^ 10 ->
  numeric_seconds (NInt z) = Ok (NInt z)
  /\ (forall key, In key TIMESTAMP_KEYS ->
        _parse_hindsight_timestamp parser_parse [(key, PInt z)]
        = Ok (Some (mk_datetime z 0)))
  /\ (forall key, _parse_hindsight_timestamp parser_parse [(key, PInt 0)] = Ok None).
Proof.
  intros Hnz Hz.
  assert (Hs : numeric_seconds (NInt z) = Ok (NInt z)) by (apply numeric_seconds_small_int; lia).
  split; [ exact Hs | split; [ | intros key; apply probe_zero_field ] ].
  intros key Hkey. apply probe_single_field; [ exact Hkey | | ].
  - simpl. apply negb_true_iff, Z.eqb_neq, Hnz.
  - rewrite (convert_numeric parser_parse (PInt z) (NInt z) eq_refl), Hs. cbn [bind].
    rewrite fromtimestamp_utc_int by lia. reflexivity.
Qed.

Lemma int_seconds_are_kept_witness :
  _parse_hindsight_timestamp no_parser [("last_visit_time", PInt (-86400))]
  = Ok (Some (mk_datetime (-86400) 0)).
Proof.
  apply (proj1 (proj2 (int_seconds_are_kept no_parser (-86400) ltac:(discriminate)
                         ltac:(lia)))).
  simpl. tauto.
Defined.

Lemma probe_raises_uncaught (parser_parse : string -> result parsed) (item : dict)
    (keys : list string) (e : exn) :
  probe parser_parse keys item = Raise e -> caught e = false.
Proof.
  induction keys as [ | key rest IH ]; [ discriminate | ].
  cbn [probe]. destruct (lookup key item) as [v | ]; [ | exact IH ].
  destruct (truthy v); [ | exact IH ].
  destruct (convert parser_parse v) as [[dt | ] | e'] eqn:Ec; [ discriminate | exact IH | ].
  destruct (caught e') eqn:Ecaught; [ exact IH | ].
  intros H. injection H as <-. exact Ecaught.
Qed.

(** X2.  Whatever the record, the normaliser never raises a ValueError, a
    TypeError or a ParserError: an exception that leaves it is one its
    [except] clause does not name. *)
Theorem normaliser_raises_no_named_exception
    (parser_parse : string -> result parsed) (item : dict) (e : exn) :
  _parse_hindsight_timestamp parser_parse item = Raise e ->
  e <> ValueError /\ e <> TypeError /\ e <> ParserError.
Proof.
  intros H. apply probe_raises_uncaught in H.
  repeat split; intros ->; discriminate H.
Qed.

Lemma normaliser_raises_no_named_exception_witness :
  _parse_hindsight_timestamp no_parser [("timestamp", PInt (10 ^ 30))] = Raise OverflowError
  /\ OverflowError <> ValueError /\ OverflowError <> TypeError /\ OverflowError <> ParserError.
Proof.
  assert (H : _parse_hindsight_timestamp no_parser [("timestamp", PInt (10 ^ 30))]
              = Raise OverflowError) by (vm_compute; reflexivity).
  split; [ exact H | exact (normaliser_raises_no_named_exception no_parser _ _ H) ].
Defined.

Lemma probe_reads_keys_only (parser_parse : string -> result parsed) (keys : list string)
    (item1 item2 : dict) :
  (forall key, In key keys -> lookup key item1 = lookup key item2) ->
  probe parser_parse keys item1 = probe parser_parse keys item2.
Proof.
  induction keys as [ | key rest IH ]; intros H; [ reflexivity | ].
  cbn [probe]. rewrite (H key (or_introl eq_refl)).
  rewrite (IH (fun k Hk => H k (or_intror Hk))). reflexivity.
Qed.

(** X3.  The timestamp of a record depends on its five candidate fields
    only: two records that agree on them get the same timestamp, or raise the
    same exception. *)
Theorem normaliser_reads_candidates_only
    (parser_parse : string -> result parsed) (item1 item2 : dict) :
  (forall key, In key TIMESTAMP_KEYS -> lookup key item1 = lookup key item2) ->
  _parse_hindsight_timestamp parser_parse item1
  = _parse_hindsight_timestamp parser_parse item2.
Proof.
  apply probe_reads_keys_only.
Qed.

Lemma normaliser_reads_candidates_only_witness :
  _parse_hindsight_timestamp no_parser alpha_once
  = _parse_hindsight_timestamp no_parser [("timestamp", PInt 1609459200)].
Proof.
  apply normaliser_reads_candidates_only.
  intros key Hkey. simpl in Hkey.
  destruct Hkey as [<- | [<- | [<- | [<- | [<- | []]]]]]; reflexivity.
Defined.

(** ** What a search returns *)

Lemma startswith_drop_contains (sub text : string) (q : nat) :
  startswith sub (drop q text) = true -> str_contains sub text = true.
Proof.
  revert text. induction q as [ | q IH ]; intros text H.
  - simpl in H. destruct text; simpl; rewrite H; reflexivity.
  - destruct text as [ | c rest ].
    + simpl in H. simpl. rewrite H. reflexivity.
    + simpl in H. simpl. rewrite (IH _ H). apply orb_true_r.
Qed.

Lemma contains_startswith_drop (sub text : string) :
  str_contains sub text = true -> exists q, startswith sub (drop q text) = true.
Proof.
  induction text as [ | c rest IH ]; intros H.
  - exists O. simpl in H. rewrite orb_false_r in H. exact H.
  - simpl in H. apply orb_true_iff in H. destruct H as [H | H].
    + exists O. exact H.
    + destruct (IH H) as [q Hq]. exists (S q). exact Hq.
Qed.

(** [sub in text] exactly when [text.count(sub)] is at least 1. *)
Lemma contains_iff_counted (sub text : string) :
  sub <> EmptyString ->
  str_contains sub text = true <-> (1 <= str_count text sub)%nat.
Proof.
  intros Hne. destruct (str_count_counts sub Hne text) as [positions [Hcount [Hat [_ Hreach]]]].
  rewrite Hcount. split.
  - intros H. apply contains_startswith_drop in H. destruct H as [q Hq].
    destruct (Hreach q Hq) as [p [Hp _]].
    destruct positions; [ contradiction | simpl; lia ].
  - intros H. destruct positions as [ | p rest ]; [ simpl in H; lia | ].
    inversion Hat as [ | ? ? Hp _ ]; subst.
    eapply startswith_drop_contains, Hp.
Qed.

(** X4.  Every match a search returns has a relevance of at least 1: with
    a term, the term occurs in the text of every record that is matched; with
    no term, the relevance is 1. *)
Theorem relevance_is_positive
    (parser_parse : string -> result parsed) (float_repr : spec_float -> string)
    (start_bound end_bound : option date) (artifact : option string) (term : string)
    (entries : list pyval) (matches : list match_entry) :
  ranked_matches parser_parse float_repr start_bound end_bound artifact term entries
  = Ok matches ->
  Forall (fun m => (1 <= m_relevance m)%nat
                   /\ str_contains term (item_text float_repr (m_item m)) = true
                   /\ (term = EmptyString -> m_relevance m = 1%nat)) matches.
Proof.
  intros H. apply ranked_matches_Ok in H. destruct H as [collected [Hc ->]].
  destruct (collect_matches_Ok _ _ _ _ _ _ _ _ Hc) as [Hshape [_ Hkept]].
  eapply Permutation_Forall; [ symmetry; apply sort_desc_perm | ].
  rewrite Hshape. rewrite Forall_map in Hkept |- *. rewrite Forall_map.
  eapply Forall_impl; [ | exact Hkept ].
  intros m [_ [_ Ht]]. cbn [m_item m_relevance make_match].
  unfold term_filter in Ht. unfold relevance, nonempty in *.
  destruct (String.eqb_spec term EmptyString) as [-> | Hne]; cbn [negb andb] in *.
  - split; [ lia | split; [ | reflexivity ] ].
    destruct (item_text float_repr (m_item m)); reflexivity.
  - apply negb_true_iff, negb_false_iff in Ht.
    split; [ apply contains_iff_counted; assumption | split; [ exact Ht | ] ].
    intros He. contradiction.
Qed.

Lemma relevance_is_positive_witness :
  Forall (fun m => (1 <= m_relevance m)%nat
                   /\ str_contains "alpha" (item_text no_float_repr (m_item m)) = true
                   /\ ("alpha" = EmptyString -> m_relevance m = 1%nat))
    [make_match no_float_repr "alpha" alpha_twice; make_match no_float_repr "alpha" alpha_once].
Proof.
  apply (relevance_is_positive no_parser no_float_repr None None None "alpha" session_records).
  vm_compute. reflexivity.
Defined.

Lemma map_result_Ok {A B : Type} (f : A -> result B) (l : list A) :
  forall l', map_result f l = Ok l' -> Forall2 (fun a b => f a = Ok b) l l'.
Proof.
  induction l as [ | a l IH ]; intros l' H.
  - injection H as <-. constructor.
  - simpl in H. apply bind_Ok_inv in H. destruct H as [b [Hb H]].
    apply bind_Ok_inv in H. destruct H as [bs [Hbs H]]. injection H as <-.
    constructor; [ exact Hb | apply IH, Hbs ].
Qed.

Lemma show_match_category (parser_parse : string -> result parsed)
    (ms : list match_entry) (shown : list shown_match) :
  Forall2 (fun m sh => show_match parser_parse m = Ok sh) ms shown ->
  map shown_category shown = map m_category ms
  /\ map shown_url shown = map (fun m => lookup "url" (m_item m)) ms.
Proof.
  induction 1 as [ | m sh ms shown Hm _ [IHc IHu] ]; [ split; reflexivity | ].
  unfold show_match in Hm. apply bind_Ok_inv in Hm. destruct Hm as [dt [_ Hm]].
  injection Hm as <-. simpl. rewrite IHc, IHu. split; reflexivity.
Qed.

(** X5.  A search that answers with a listing has at least one match, ranked
    among the records of its session within the bounds read from its date
    range; it reports the number of all matches, shows the first 20 of the
    ranked matches, in their order, and announces how many more there are
    exactly when there are more than 20. *)
Theorem listing_shows_the_first_twenty
    (parser_parse : string -> result parsed) (float_repr : spec_float -> string)
    (fromisoformat : string -> option date)
    (arguments : search_arguments) (analysis_results : store)
    (total : nat) (shown : list shown_match) (more : option nat) :
  fst (search_analysis_results parser_parse float_repr fromisoformat arguments
         analysis_results)
  = Ok (Listing total shown more) ->
  exists (a : analysis) (start_bound end_bound : option date) (matches : list match_entry),
    find_analysis (analysis_id arguments) analysis_results = Some a
    /\ parse_date_range fromisoformat (date_range arguments) = Ok (start_bound, end_bound)
    /\ ranked_matches parser_parse float_repr start_bound end_bound
         (artifact_type arguments) (lowered_term arguments) (results a) = Ok matches
    /\ (1 <= total)%nat
    /\ total = List.length matches
    /\ List.length shown = Nat.min 20 total
    /\ map shown_category shown = map m_category (firstn 20 matches)
    /\ map shown_url shown = map (fun m => lookup "url" (m_item m)) (firstn 20 matches)
    /\ more = if (20 <? total)%nat then Some (total - 20)%nat else None.
Proof.
  unfold search_analysis_results. cbn [fst].
  destruct (find_analysis (analysis_id arguments) analysis_results) as [a | ];
    [ | discriminate ].
  destruct (parse_date_range fromisoformat (date_range arguments))
    as [[start_bound end_bound] | e] eqn:Hp; [ | destruct e; discriminate ].
  destruct (ranked_matches parser_parse float_repr start_bound end_bound
              (artifact_type arguments) (lowered_term arguments) (results a))
    as [matches | e] eqn:Hr; [ | discriminate ].
  cbn [bind]. destruct matches as [ | m matches ]; [ discriminate | ].
  intros H. apply bind_Ok_inv in H. destruct H as [shown' [Hshown H]].
  injection H as <- <- <-.
  apply map_result_Ok in Hshown.
  destruct (show_match_category _ _ _ Hshown) as [Hcat Hurl].
  exists a, start_bound, end_bound, (m :: matches).
  split; [ reflexivity | split; [ reflexivity | split; [ exact Hr | ] ] ].
  split; [ simpl; lia | split; [ reflexivity | ] ].
  split; [ | split; [ exact Hcat | split; [ exact Hurl | reflexivity ] ] ].
  rewrite <- (Forall2_length Hshown). apply length_firstn.
Qed.

Lemma listing_shows_the_first_twenty_witness :
  fst (search_analysis_results no_parser no_float_repr iso_date_only empty_start session_store)
  = Ok (Listing 1 [mk_shown (PStr "unknown") None (Some (PStr "http://c.com")) None None] None)
  /\ exists (a : analysis) (start_bound end_bound : option date) (matches : list match_entry),
       find_analysis (analysis_id empty_start) session_store = Some a
       /\ parse_date_range iso_date_only (date_range empty_start) = Ok (start_bound, end_bound)
       /\ ranked_matches no_parser no_float_repr start_bound end_bound
            (artifact_type empty_start) (lowered_term empty_start) (results a) = Ok matches
       /\ 1%nat = List.length matches.
Proof.
  assert (H : fst (search_analysis_results no_parser no_float_repr iso_date_only empty_start
                     session_store)
              = Ok (Listing 1
                      [mk_shown (PStr "unknown") None (Some (PStr "http://c.com")) None None]
                      None)) by (vm_compute; reflexivity).
  split; [ exact H | ].
  destruct (listing_shows_the_first_twenty _ _ _ _ _ _ _ _ H)
    as [a [sb [eb [matches [Hf [Hp [Hr [_ [Hlen _]]]]]]]]].
  exists a, sb, eb, matches.
  split; [ exact Hf | split; [ exact Hp | split; [ exact Hr | exact Hlen ] ] ].
Defined.

Section DateNarrows.

Variable parser_parse : string -> result parsed.
Variable float_repr : spec_float -> string.
Variables start_bound end_bound : option date.
Variable artifact : option string.
Variable term : string.

Lemma collect_matches_date_narrows (entries : list pyval) :
  forall ms all_ms,
    collect_matches parser_parse float_repr start_bound end_bound artifact term entries
    = Ok ms ->
    collect_matches parser_parse float_repr None None artifact term entries = Ok all_ms ->
    subseq ms all_ms.
Proof.
  induction entries as [ | v entries IH ]; intros ms all_ms H Hall.
  - simpl in H, Hall. injection H as <-. injection Hall as <-. constructor.
  - destruct v; simpl in H, Hall; try (eapply IH; eassumption).
    destruct (date_filter parser_parse start_bound end_bound d) as [[ | ] | e];
      simpl in H; try discriminate.
    + destruct (category_filter artifact d) as [[ | ] | e]; simpl in H, Hall;
        try discriminate; [ | eapply IH; eassumption ].
      destruct (term_filter float_repr term d); simpl in H, Hall;
        [ | eapply IH; eassumption ].
      apply bind_Ok_inv in H. destruct H as [ms' [Hms' H]]. injection H as <-.
      apply bind_Ok_inv in Hall. destruct Hall as [all' [Hall' Hall]]. injection Hall as <-.
      apply subseq_keep. eapply IH; eassumption.
    + destruct (category_filter artifact d) as [[ | ] | e]; simpl in Hall;
        try discriminate; [ | eapply IH; eassumption ].
      destruct (term_filter float_repr term d); simpl in Hall;
        [ | eapply IH; eassumption ].
      apply bind_Ok_inv in Hall. destruct Hall as [all' [Hall' Hall]]. injection Hall as <-.
      apply subseq_skip. eapply IH; eassumption.
Qed.

End DateNarrows.

(** X6.  A date range only narrows a search: when the search with the
    range and the same search without it both return, every match of the
    first is a match of the second. *)
Theorem date_range_narrows
    (parser_parse : string -> result parsed) (float_repr : spec_float -> string)
    (start_bound end_bound : option date) (artifact : option string) (term : string)
    (entries : list pyval) (matches all_matches : list match_entry) :
  ranked_matches parser_parse float_repr start_bound end_bound artifact term entries
  = Ok matches ->
  ranked_matches parser_parse float_repr None None artifact term entries = Ok all_matches ->
  forall m, In m matches -> In m all_matches.
Proof.
  intros H Hall m Hm.
  apply ranked_matches_Ok in H. destruct H as [collected [Hc ->]].
  apply ranked_matches_Ok in Hall. destruct Hall as [all_collected [Hac ->]].
  apply sort_desc_In. apply sort_desc_In in Hm.
  apply (subseq_In collected all_collected m);
    [ eapply collect_matches_date_narrows; eassumption | exact Hm ].
Qed.

Lemma date_range_narrows_witness :
  ranked_matches no_parser no_float_repr (Some (days_from_civil 2021 1 1)) None None
    EmptyString session_records
  = Ok [make_match no_float_repr EmptyString alpha_once]
  /\ ranked_matches no_parser no_float_repr None None None EmptyString session_records
     = Ok [make_match no_float_repr EmptyString alpha_once;
           make_match no_float_repr EmptyString no_alpha;
           make_match no_float_repr EmptyString alpha_twice]
  /\ In (make_match no_float_repr EmptyString alpha_once)
       [make_match no_float_repr EmptyString alpha_once;
        make_match no_float_repr EmptyString no_alpha;
        make_match no_float_repr EmptyString alpha_twice].
Proof.
  assert (H1 : ranked_matches no_parser no_float_repr (Some (days_from_civil 2021 1 1)) None
                 None EmptyString session_records
               = Ok [make_match no_float_repr EmptyString alpha_once])
    by (vm_compute; reflexivity).
  assert (H2 : ranked_matches no_parser no_float_repr None None None EmptyString
                 session_records
               = Ok [make_match no_float_repr EmptyString alpha_once;
                     make_match no_float_repr EmptyString no_alpha;
                     make_match no_float_repr EmptyString alpha_twice])
    by (vm_compute; reflexivity).
  split; [ exact H1 | split; [ exact H2 | ] ].
  apply (date_range_narrows _ _ _ _ _ _ _ _ _ H1 H2). left. reflexivity.
Defined.

(** The filters run in order: a record the date filter leaves out is never
    shown to the artifact-type filter, which would raise on it. *)
Lemma date_filter_runs_first :
  ranked_matches no_parser no_float_repr (Some (days_from_civil 2021 1 1)) None (Some "url")
    EmptyString [PDict [("type", PInt 5)]] = Ok []
  /\ ranked_matches no_parser no_float_repr None None (Some "url")
       EmptyString [PDict [("type", PInt 5)]] = Raise AttributeError.
Proof.
  split; vm_compute; reflexivity.
Qed.

(** ** What a summary reports *)

Lemma py_eq_str_inv (k : pyval) (s : string) : py_eq k (PStr s) = true -> k = PStr s.
Proof.
  destruct k as [ | b | z | f | t | l | d ]; try destruct f; simpl; intros H;
    try discriminate H.
  apply String.eqb_eq in H. congruence.
Qed.

Lemma py_eq_str (s c : string) : py_eq (PStr s) (PStr c) = String.eqb s c.
Proof.
  reflexivity.
Qed.

Lemma bucket_count_add (c s : string) (buckets : list (pyval * nat)) :
  bucket_count c (bucket_add (PStr s) buckets)
  = (bucket_count c buckets + if String.eqb s c then 1 else 0)%nat.
Proof.
  induction buckets as [ | [k n] rest IH ].
  - simpl. destruct (String.eqb s c); reflexivity.
  - simpl. destruct (py_eq k (PStr s)) eqn:Eks.
    + apply py_eq_str_inv in Eks. subst k. simpl.
      destruct (String.eqb_spec s c) as [-> | Hne]; [ lia | lia ].
    + simpl. destruct (py_eq k (PStr c)) eqn:Ekc; [ | exact IH ].
      apply py_eq_str_inv in Ekc. subst k. rewrite py_eq_str in Eks.
      rewrite String.eqb_sym, Eks. lia.
Qed.

Lemma bucket_add_keys (s : string) (buckets : list (pyval * nat)) :
  map fst (bucket_add (PStr s) buckets) = map fst buckets
  \/ (map fst (bucket_add (PStr s) buckets) = map fst buckets ++ [PStr s]
      /\ ~ In (PStr s) (map fst buckets)).
Proof.
  induction buckets as [ | [k n] rest IH ]; [ right; split; [ reflexivity | intros [] ] | ].
  simpl. destruct (py_eq k (PStr s)) eqn:Eks; [ left; reflexivity | ].
  destruct IH as [IH | [IH Hnot]]; simpl.
  - left. rewrite IH. reflexivity.
  - right. rewrite IH. split; [ reflexivity | ].
    intros [Hk | Hin]; [ | exact (Hnot Hin) ].
    subst k. rewrite py_eq_str, String.eqb_refl in Eks. discriminate.
Qed.

Lemma bucket_add_tidy (s : string) (buckets : list (pyval * nat)) :
  tidy buckets -> tidy (bucket_add (PStr s) buckets).
Proof.
  intros [Hall Hnodup]. split.
  - clear Hnodup. induction Hall as [ | [k n] rest [Hk Hn] Hrest IH ].
    + constructor; [ split; [ exists s; reflexivity | simpl; lia ] | constructor ].
    + simpl. destruct (py_eq k (PStr s)); constructor; try assumption.
      * split; [ exact Hk | simpl in *; lia ].
      * split; assumption.
  - destruct (bucket_add_keys s buckets) as [-> | [-> Hnot]]; [ exact Hnodup | ].
    apply NoDup_app; [ exact Hnodup | repeat constructor; intros [] | ].
    intros x Hx [<- | []]. exact (Hnot Hx).
Qed.

Lemma records_of_category_cons (c s : string) (it : dict) (rest : list pyval) :
  category_of it "unknown" = PStr s ->
  records_of_category c (PDict it :: rest)
  = ((if String.eqb s c then 1 else 0) + records_of_category c rest)%nat.
Proof.
  intros Hs. unfold records_of_category. simpl. rewrite Hs, py_eq_str.
  destruct (String.eqb s c); reflexivity.
Qed.

Lemma count_categories_tally (items_list : list pyval) :
  Forall (fun it => exists c, category_of it "unknown" = PStr c) (dict_items items_list) ->
  forall buckets, tidy buckets ->
    exists counts,
      count_categories items_list buckets = Ok counts
      /\ tidy counts
      /\ forall c, bucket_count c counts
                   = (bucket_count c buckets + records_of_category c items_list)%nat.
Proof.
  induction items_list as [ | v rest IH ]; intros Hall buckets Ht.
  - exists buckets. split; [ reflexivity | split; [ exact Ht | ] ].
    intros c. unfold records_of_category. simpl. lia.
  - destruct v; simpl in Hall;
      try (destruct (IH Hall buckets Ht) as [counts [Hc [Htc Hcount]]];
           exists counts; split; [ exact Hc | split; [ exact Htc | exact Hcount ] ]).
    inversion Hall as [ | ? ? [s Hs] Hrest ]; subst.
    destruct (IH Hrest _ (bucket_add_tidy s _ Ht)) as [counts [Hc [Htc Hcount]]].
    exists counts. split; [ | split; [ exact Htc | ] ].
    + simpl. rewrite Hs. simpl. rewrite <- Hs. rewrite Hs. exact Hc.
    + intros c. rewrite Hcount, bucket_count_add, (records_of_category_cons c s) by exact Hs.
      lia.
Qed.

Lemma bucket_count_In (c : string) (n : nat) (buckets : list (pyval * nat)) :
  NoDup (map fst buckets) -> In (PStr c, n) buckets -> bucket_count c buckets = n.
Proof.
  induction buckets as [ | [k m] rest IH ]; intros Hnodup Hin; [ contradiction | ].
  simpl in Hnodup. inversion Hnodup as [ | ? ? Hnot Hrest ]; subst.
  simpl. destruct Hin as [Heq | Hin].
  - injection Heq as -> ->. rewrite py_eq_str, String.eqb_refl. reflexivity.
  - destruct (py_eq k (PStr c)) eqn:Ek; [ | apply IH; assumption ].
    apply py_eq_str_inv in Ek. subst k. exfalso. apply Hnot.
    apply (in_map fst) in Hin. exact Hin.
Qed.

Lemma firstn_In {A : Type} (n : nat) (l : list A) (a : A) : In a (firstn n l) -> In a l.
Proof.
  intros H. rewrite <- (firstn_skipn n l). apply in_or_app. left. exact H.
Qed.

(** X7.  When the category of every record is a string, the tally never
    raises, and the count it keeps for a category is the number of records,
    among the stored dicts, that have this category; so is every count the
    summary reports. *)
Theorem category_counts_are_tallies (float_repr : spec_float -> string)
    (items_list : list pyval) :
  Forall (fun it => exists c, category_of it "unknown" = PStr c) (dict_items items_list) ->
  exists buckets,
    count_categories items_list [] = Ok buckets
    /\ (forall c, bucket_count c buckets = records_of_category c items_list)
    /\ forall s, create_analysis_summary float_repr items_list = Ok s ->
         forall k n, In (k, n) (category_lines s) ->
           exists c, k = PStr c /\ n = records_of_category c items_list /\ (1 <= n)%nat.
Proof.
  intros Hall.
  destruct (count_categories_tally _ Hall [] (conj (Forall_nil _) (NoDup_nil _)))
    as [buckets [Hb [[Hstr Hnodup] Hsum]]].
  assert (Hcount : forall c, bucket_count c buckets = records_of_category c items_list)
    by (intros c; rewrite Hsum; reflexivity).
  exists buckets. split; [ exact Hb | split; [ exact Hcount | ] ].
  intros s Hs k n Hin.
  destruct (create_analysis_summary_Ok _ _ _ Hs) as [_ [buckets' [Hb' Hlines]]].
  rewrite Hb in Hb'. injection Hb' as <-.
  rewrite Hlines in Hin. apply firstn_In, sort_desc_In in Hin.
  rewrite Forall_forall in Hstr. destruct (Hstr _ Hin) as [[c Hc] Hn]. simpl in Hc, Hn.
  subst k. exists c. split; [ reflexivity | split; [ | exact Hn ] ].
  rewrite <- Hcount. symmetry. apply bucket_count_In; assumption.
Qed.

Lemma category_counts_are_tallies_witness :
  exists buckets,
    count_categories session_records [] = Ok buckets
    /\ bucket_count "unknown" buckets = 2%nat
    /\ bucket_count "chrome:history:URL" buckets = 1%nat
    /\ bucket_count "download" buckets = 0%nat.
Proof.
  destruct (category_counts_are_tallies no_float_repr session_records)
    as [buckets [Hb [Hcount _]]].
  - repeat constructor; eexists; reflexivity.
  - exists buckets. split; [ exact Hb | ]. rewrite !Hcount. repeat split.
Defined.

Lemma descending_firstn {A : Type} (ikey : A -> Z) (n : nat) (l : list A) :
  descending ikey l -> descending ikey (firstn n l).
Proof.
  unfold descending. revert l. induction n as [ | n IH ]; intros l H; [ constructor | ].
  destruct l as [ | x l ]; [ constructor | ].
  inversion H as [ | ? ? Hl Hx ]; subst. simpl. constructor; [ apply IH, Hl | ].
  apply firstn_Forall, Hx.
Qed.

(** X8.  The summary shows at most ten categories, largest count first;
    they are the first ten of the tallied categories ranked by count, with
    categories of equal count in the order in which they were first met, so
    that no category left out has a larger count than one shown. *)
Theorem summary_shows_ten_largest_categories (float_repr : spec_float -> string)
    (items_list : list pyval) (s : summary) :
  create_analysis_summary float_repr items_list = Ok s ->
  (List.length (category_lines s) <= 10)%nat
  /\ descending count_rank (category_lines s)
  /\ exists buckets ranked,
       count_categories items_list [] = Ok buckets
       /\ Permutation ranked buckets
       /\ same_order_among_equals count_rank ranked buckets
       /\ category_lines s = firstn 10 ranked
       /\ forall shown hidden, In shown (category_lines s) -> In hidden (skipn 10 ranked) ->
            count_rank hidden <= count_rank shown.
Proof.
  intros Hs. destruct (create_analysis_summary_Ok _ _ _ Hs) as [_ [buckets [Hb Hlines]]].
  rewrite Hlines. split; [ apply firstn_le_length | ].
  split; [ apply descending_firstn, sort_desc_descending | ].
  exists buckets, (sort_desc count_rank buckets).
  split; [ exact Hb | ]. split; [ apply sort_desc_perm | ].
  split; [ apply sort_desc_stable | ]. split; [ reflexivity | ].
  intros shown hidden. apply descending_firstn_dominates, sort_desc_descending.
Qed.

Lemma summary_shows_ten_largest_categories_witness :
  create_analysis_summary no_float_repr session_records
  = Ok (mk_summary [(PStr "unknown", 2%nat); (PStr "chrome:history:URL", 1%nat)]
          (Some ["http://a.com"; "http://c.com"; "http://b.com/alpha/ALPHA"]) None 4)
  /\ descending count_rank [(PStr "unknown", 2%nat); (PStr "chrome:history:URL", 1%nat)].
Proof.
  assert (H : create_analysis_summary no_float_repr session_records
              = Ok (mk_summary [(PStr "unknown", 2%nat); (PStr "chrome:history:URL", 1%nat)]
                      (Some ["http://a.com"; "http://c.com"; "http://b.com/alpha/ALPHA"])
                      None 4))
    by (vm_compute; reflexivity).
  split; [ exact H | ].
  exact (proj1 (proj2 (summary_shows_ten_largest_categories _ _ _ H))).
Defined.

(** ** The highlight lines *)

Section SortedFacts.

Context {A : Type}.
Variable key : A -> pyval.
Variable reverse : bool.

Lemma insert_sorted_perm (x : A) (l : list A) :
  forall l', insert_sorted key reverse x l = Ok l' -> Permutation l' (x :: l).
Proof.
  induction l as [ | y l IH ]; intros l' H.
  - injection H as <-. reflexivity.
  - simpl in H. apply bind_Ok_inv in H. destruct H as [[ | ] [_ H]].
    + apply bind_Ok_inv in H. destruct H as [r [Hr H]]. injection H as <-.
      rewrite (IH _ Hr). apply perm_swap.
    + injection H as <-. reflexivity.
Qed.

(** The sort, when no comparison raises, rearranges the list. *)
Lemma sorted_perm (l : list A) :
  forall l', sorted key reverse l = Ok l' -> Permutation l' l.
Proof.
  induction l as [ | x l IH ]; intros l' H.
  - injection H as <-. reflexivity.
  - simpl in H. apply bind_Ok_inv in H. destruct H as [r [Hr H]].
    rewrite (insert_sorted_perm _ _ _ H). apply perm_skip, IH, Hr.
Qed.

End SortedFacts.

Lemma length_substring_0 (n : nat) (s : string) :
  String.length (substring 0 n s) = Nat.min n (String.length s).
Proof.
  revert s. induction n as [ | n IH ]; intros s.
  - destruct s; reflexivity.
  - destruct s as [ | c s ]; [ reflexivity | ]. simpl. rewrite IH. reflexivity.
Qed.

Lemma substring_0_all (n : nat) (s : string) :
  (String.length s <= n)%nat -> substring 0 n s = s.
Proof.
  revert s. induction n as [ | n IH ]; intros s H.
  - destruct s; [ reflexivity | simpl in H; lia ].
  - destruct s as [ | c s ]; [ reflexivity | ]. simpl in *. rewrite IH by lia. reflexivity.
Qed.

Lemma length_append (s1 s2 : string) :
  String.length (s1 ++ s2) = (String.length s1 + String.length s2)%nat.
Proof.
  induction s1 as [ | c s1 IH ]; [ reflexivity | ]. simpl. rewrite IH. reflexivity.
Qed.

Lemma append_empty_r (s : string) : (s ++ EmptyString)%string = s.
Proof.
  induction s as [ | c s IH ]; [ reflexivity | ]. simpl. rewrite IH. reflexivity.
Qed.

Lemma truncated_length (s : string) : (String.length (truncated s) <= 53)%nat.
Proof.
  unfold truncated. rewrite length_append, length_substring_0.
  pose proof (Nat.le_min_l 50 (String.length s)) as Hmin.
  destruct (50 <? String.length s)%nat;
    [ change (String.length "...") with 3%nat | change (String.length EmptyString) with 0%nat ];
    lia.
Qed.

Lemma truncated_short (s : string) : (String.length s <= 50)%nat -> truncated s = s.
Proof.
  intros H. unfold truncated. rewrite substring_0_all by exact H.
  destruct (Nat.ltb_spec 50 (String.length s)); [ lia | ]. apply append_empty_r.
Qed.

Lemma render_url_Ok (u : dict) (t : string) :
  render_url u = Ok t -> t = truncated (url_text u).
Proof.
  unfold render_url, url_text.
  destruct (py_or (get u "url") (PStr EmptyString)); try discriminate.
  intros H. injection H as <-. reflexivity.
Qed.

(** X9.  When the summary writes its "Top visited" line (when nothing in
    it raises), there is no line exactly when no record carries a url; the
    line lists three records, or all the records with a url when they are
    fewer; each entry is at most 53 characters long; and a url of at most 50
    characters is listed as it is. *)
Theorem top_visited_line_shape (items_list : list pyval) (line : option (list string)) :
  top_visited_line items_list = Ok line ->
  (line = None <-> url_records items_list = [])
  /\ (forall shown, line = Some shown ->
        List.length shown = Nat.min 3 (List.length (url_records items_list))
        /\ Forall (fun t => (String.length t <= 53)%nat) shown
        /\ exists ranked,
             Permutation ranked (url_records items_list)
             /\ shown = map (fun u => truncated (url_text u)) (firstn 3 ranked))
  /\ (forall u s, get u "url" = PStr s -> (String.length s <= 50)%nat ->
        render_url u = Ok s).
Proof.
  intros H. split; [ | split ].
  - unfold top_visited_line in H. fold (url_records items_list) in H.
    destruct (url_records items_list) as [ | u urls ].
    + injection H as <-. split; reflexivity.
    + apply bind_Ok_inv in H. destruct H as [ranked [Hr H]].
      pose proof (Permutation_length (sorted_perm _ _ _ _ Hr)) as Hlen.
      destruct ranked as [ | r ranked ]; [ discriminate Hlen | ].
      change (firstn 3 (r :: ranked)) with (r :: firstn 2 ranked) in H. cbv iota in H.
      apply bind_Ok_inv in H. destruct H as [shown [_ H]]. injection H as <-.
      split; discriminate.
  - intros shown ->. unfold top_visited_line in H. fold (url_records items_list) in H.
    destruct (url_records items_list) as [ | u urls ] eqn:Eurls; [ discriminate | ].
    apply bind_Ok_inv in H. destruct H as [ranked [Hr H]].
    pose proof (sorted_perm _ _ _ _ Hr) as Hperm.
    pose proof (Permutation_length Hperm) as Hlen.
    assert (Hshown : map_result render_url (firstn 3 ranked) = Ok shown).
    { destruct ranked as [ | r ranked ]; [ discriminate Hlen | ].
      change (firstn 3 (r :: ranked)) with (r :: firstn 2 ranked) in *. cbv iota in H.
      apply bind_Ok_inv in H. destruct H as [shown' [Hs H]]. injection H as <-. exact Hs. }
    apply map_result_Ok in Hshown.
    assert (Heq : shown = map (fun u => truncated (url_text u)) (firstn 3 ranked)).
    { clear - Hshown. induction Hshown as [ | x t l shown Hx _ IH ]; [ reflexivity | ].
      simpl. rewrite (render_url_Ok _ _ Hx), IH. reflexivity. }
    split; [ | split ].
    + rewrite <- (Forall2_length Hshown), length_firstn, Hlen. reflexivity.
    + rewrite Heq. apply Forall_forall. intros t Ht. apply in_map_iff in Ht.
      destruct Ht as [x [<- _]]. apply truncated_length.
    + exists ranked. split; [ exact Hperm | exact Heq ].
  - intros u s Hu Hs. unfold render_url. rewrite Hu. unfold py_or.
    destruct (truthy (PStr s)) eqn:Et.
    + change (Ok (truncated s) = Ok s). rewrite truncated_short by exact Hs. reflexivity.
    + simpl in Et. apply negb_false_iff, String.eqb_eq in Et. subst s. reflexivity.
Qed.

Lemma top_visited_line_shape_witness :
  top_visited_line session_records
  = Ok (Some ["http://a.com"; "http://c.com"; "http://b.com/alpha/ALPHA"])
  /\ List.length ["http://a.com"; "http://c.com"; "http://b.com/alpha/ALPHA"]
     = Nat.min 3 (List.length (url_records session_records)).
Proof.
  assert (H : top_visited_line session_records
              = Ok (Some ["http://a.com"; "http://c.com"; "http://b.com/alpha/ALPHA"]))
    by (vm_compute; reflexivity).
  split; [ exact H | ].
  exact (proj1 (proj1 (proj2 (top_visited_line_shape _ _ H)) _ eq_refl)).
Defined.

Lemma last_segment_app (a b seg : string) :
  last_segment (a ++ b) seg = last_segment b (last_segment a seg).
Proof.
  revert seg. induction a as [ | c a IH ]; intros seg; [ reflexivity | ].
  simpl. destruct (Ascii.eqb c "/"); apply IH.
Qed.

Lemma last_segment_no_slash (name seg : string) :
  no_slash name = true -> last_segment name seg = (seg ++ name)%string.
Proof.
  revert seg. induction name as [ | c name IH ]; intros seg H.
  - simpl. symmetry. apply append_empty_r.
  - simpl in H. apply andb_true_iff in H. destruct H as [Hc Hn].
    apply negb_true_iff in Hc. simpl. rewrite Hc, (IH _ Hn).
    clear. induction seg as [ | d seg IH ]; [ reflexivity | ]. simpl. rewrite IH. reflexivity.
Qed.

Lemma no_slash_app (a b : string) :
  no_slash a = true -> no_slash b = true -> no_slash (a ++ b) = true.
Proof.
  induction a as [ | c a IH ]; intros Ha Hb; [ exact Hb | ].
  simpl in *. apply andb_true_iff in Ha. destruct Ha as [Hc Ha].
  rewrite Hc, (IH Ha Hb). reflexivity.
Qed.

Lemma last_segment_has_no_slash (text seg : string) :
  no_slash seg = true -> no_slash (last_segment text seg) = true.
Proof.
  revert seg. induction text as [ | c text IH ]; intros seg H; [ exact H | ].
  simpl. destruct (Ascii.eqb c "/") eqn:Ec; [ apply IH; reflexivity | ].
  apply IH, no_slash_app; [ exact H | ]. simpl. rewrite Ec. reflexivity.
Qed.

(** X10.  A download is shown by the last segment of its target path:
    for a path that ends in "/" and a name without "/", the name; whatever
    the path, the text shown contains no "/".  A target path that is not a
    string (and not empty) raises an AttributeError. *)
Theorem download_is_shown_by_its_file_name (dl : dict) :
  (forall directory file_name : string,
      get dl "target_path" = PStr (directory ++ "/" ++ file_name) ->
      no_slash file_name = true ->
      render_download dl = Ok file_name)
  /\ (forall shown, render_download dl = Ok shown -> no_slash shown = true)
  /\ (forall v, get dl "target_path" = v -> truthy v = true ->
        (forall s, v <> PStr s) -> render_download dl = Raise AttributeError).
Proof.
  split; [ | split ].
  - intros directory file_name Hp Hn. unfold render_download. rewrite Hp.
    assert (Ht : truthy (PStr (directory ++ "/" ++ file_name)) = true)
      by (destruct directory; reflexivity).
    unfold py_or. rewrite Ht. f_equal.
    rewrite last_segment_app, last_segment_app. simpl (last_segment "/" _).
    apply (last_segment_no_slash file_name EmptyString Hn).
  - intros shown. unfold render_download.
    destruct (py_or (get dl "target_path") (PStr EmptyString)); try discriminate.
    intros H. injection H as <-. apply last_segment_has_no_slash. reflexivity.
  - intros v Hv Ht Hns. unfold render_download, py_or. rewrite Hv, Ht.
    destruct v; try reflexivity. exfalso. exact (Hns s eq_refl).
Qed.

Lemma download_is_shown_by_its_file_name_witness :
  render_download [("target_path", PStr "/home/user/Downloads/setup.exe")] = Ok "setup.exe".
Proof.
  apply (proj1 (download_is_shown_by_its_file_name
                  [("target_path", PStr "/home/user/Downloads/setup.exe")])
           "/home/user/Downloads" "setup.exe"); reflexivity.
Defined.

(** ** The store and its resources *)

Lemma decimal_inj (a b : Z) : 0 < a -> 0 < b -> decimal a = decimal b -> a = b.
Proof.
  intros Ha Hb H. unfold decimal in H.
  destruct a as [ | p | p ]; try lia. destruct b as [ | q | q ]; try lia.
  assert (Hi : forall r, NilZero.int_of_string (NilZero.string_of_int (Z.to_int (Z.pos r)))
                         = Some (Z.to_int (Z.pos r))).
  { intros r. apply NilZero.isi; simpl;
      [ intros E; injection E as E; exact (Unsigned.to_uint_nonnil r E) | discriminate ]. }
  pose proof (Hi p) as Hp. rewrite H, Hi in Hp. injection Hp as Hp.
  apply Unsigned.to_uint_inj in Hp. congruence.
Qed.

Lemma no_slash_uint (d : Decimal.uint) : no_slash (NilEmpty.string_of_uint d) = true.
Proof.
  induction d; simpl; try exact IHd; reflexivity.
Qed.

Lemma no_slash_decimal (a : Z) : 0 <= a -> no_slash (decimal a) = true.
Proof.
  intros Ha. unfold decimal. destruct a as [ | p | p ]; [ reflexivity | | lia ].
  simpl. unfold NilZero.string_of_uint.
  destruct (Pos.to_uint p); try reflexivity; apply no_slash_uint.
Qed.

Lemma analysis_id_number (t t' : ingestion) (a b : Z) :
  0 < a -> 0 < b ->
  (id_prefix t ++ decimal a)%string = (id_prefix t' ++ decimal b)%string -> a = b.
Proof.
  intros Ha Hb H. apply decimal_inj; [ exact Ha | exact Hb | ].
  destruct t, t'; cbn [id_prefix append] in H; try discriminate H;
    injection H as H; exact H.
Qed.

Lemma no_slash_analysis_id (t : ingestion) (a : Z) :
  0 <= a -> no_slash (id_prefix t ++ decimal a) = true.
Proof.
  intros Ha. apply no_slash_app; [ destruct t; reflexivity | apply no_slash_decimal, Ha ].
Qed.

Lemma numbered_from_In (analysis_results : store) :
  forall k id a, numbered_from k analysis_results -> In (id, a) analysis_results ->
    exists tool j,
      k <= j < k + Z.of_nat (List.length analysis_results)
      /\ id = (id_prefix tool ++ decimal j)%string.
Proof.
  induction analysis_results as [ | [id0 a0] rest IH ]; intros k id a Hn Hin; [ contradiction | ].
  destruct Hn as [[tool Hid] Hrest]. destruct Hin as [Heq | Hin].
  - injection Heq as <- <-. exists tool, k. split; [ simpl List.length; lia | exact Hid ].
  - destruct (IH _ _ _ Hrest Hin) as [tool' [j [Hj Hj']]].
    exists tool', j. split; [ simpl List.length; lia | exact Hj' ].
Qed.

Lemma find_analysis_absent (id : string) (analysis_results : store) :
  (forall a, ~ In (id, a) analysis_results) -> find_analysis id analysis_results = None.
Proof.
  induction analysis_results as [ | [k a] rest IH ]; intros H; [ reflexivity | ].
  simpl. destruct (String.eqb_spec id k) as [-> | Hne].
  - exfalso. apply (H a). left. reflexivity.
  - apply IH. intros a' Hin. apply (H a'). right. exact Hin.
Qed.

Lemma find_analysis_numbered (analysis_results : store) :
  forall k id a, 0 < k -> numbered_from k analysis_results -> In (id, a) analysis_results ->
    find_analysis id analysis_results = Some a.
Proof.
  induction analysis_results as [ | [id0 a0] rest IH ]; intros k id a Hk Hn Hin;
    [ contradiction | ].
  destruct Hn as [[tool Hid] Hrest]. simpl.
  destruct Hin as [Heq | Hin].
  - injection Heq as <- <-. rewrite String.eqb_refl. reflexivity.
  - destruct (String.eqb_spec id id0) as [-> | Hne];
      [ | apply (IH (k + 1) id a); [ lia | exact Hrest | exact Hin ] ].
    exfalso. destruct (numbered_from_In _ _ _ _ Hrest Hin) as [tool' [j [Hj Hj']]].
    rewrite Hid in Hj'. apply analysis_id_number in Hj'; lia.
Qed.

Lemma store_set_absent (id : string) (entry : analysis) (analysis_results : store) :
  find_analysis id analysis_results = None ->
  store_set id entry analysis_results = analysis_results ++ [(id, entry)].
Proof.
  induction analysis_results as [ | [k a] rest IH ]; intros H; [ reflexivity | ].
  simpl in *. destruct (String.eqb id k); [ discriminate | ]. rewrite IH by exact H.
  reflexivity.
Qed.

Lemma numbered_from_app (analysis_results : store) :
  forall k id entry tool,
    numbered_from k analysis_results ->
    id = (id_prefix tool ++ decimal (k + Z.of_nat (List.length analysis_results)))%string ->
    numbered_from k (analysis_results ++ [(id, entry)]).
Proof.
  induction analysis_results as [ | [id0 a0] rest IH ]; intros k id entry tool Hn Hid.
  - simpl in *. rewrite Z.add_0_r in Hid. split; [ exists tool; exact Hid | exact I ].
  - destruct Hn as [Hhead Hrest]. split; [ exact Hhead | ].
    apply (IH _ _ _ tool Hrest). rewrite Hid. f_equal. f_equal. simpl List.length. lia.
Qed.

Lemma find_analysis_app (id : string) (analysis_results more : store) (a : analysis) :
  find_analysis id analysis_results = Some a ->
  find_analysis id (analysis_results ++ more) = Some a.
Proof.
  induction analysis_results as [ | [k a0] rest IH ]; [ discriminate | ].
  simpl. destruct (String.eqb id k); [ intros H; exact H | exact IH ].
Qed.

Lemma find_analysis_last (id : string) (entry : analysis) (analysis_results : store) :
  find_analysis id analysis_results = None ->
  find_analysis id (analysis_results ++ [(id, entry)]) = Some entry.
Proof.
  induction analysis_results as [ | [k a0] rest IH ].
  - intros _. simpl. rewrite String.eqb_refl. reflexivity.
  - simpl. destruct (String.eqb id k); [ discriminate | exact IH ].
Qed.

Lemma new_analysis_id_fresh (tool : ingestion) (analysis_results : store) :
  numbered_from 1 analysis_results ->
  find_analysis (new_analysis_id tool analysis_results) analysis_results = None.
Proof.
  intros Hn. apply find_analysis_absent. intros a Hin.
  destruct (numbered_from_In _ _ _ _ Hn Hin) as [tool' [j [Hj Hj']]].
  unfold new_analysis_id in Hj'. apply analysis_id_number in Hj'; lia.
Qed.

Lemma reachable_numbered (analysis_results : store) :
  reachable analysis_results -> numbered_from 1 analysis_results.
Proof.
  induction 1 as [ | tool source_path browser items st _ IH ]; [ exact I | ].
  unfold store_results. cbn [snd].
  rewrite store_set_absent by (apply new_analysis_id_fresh, IH).
  apply (numbered_from_app _ _ _ _ tool IH). unfold new_analysis_id.
  f_equal. f_equal. lia.
Qed.

(** X11.  In a store the tools have built, storing the results of an
    analysis makes an id that was not in use, puts the analysis at the end of
    the store under it, where it is found, and leaves every analysis stored
    before under its id; the analysis is stored whether or not its summary
    raises. *)
Theorem storing_never_overwrites
    (analysis_results : store) (tool : ingestion) (source_path browser : string)
    (items : list pyval) :
  reachable analysis_results ->
  find_analysis (new_analysis_id tool analysis_results) analysis_results = None
  /\ store_results tool source_path browser items analysis_results
     = (new_analysis_id tool analysis_results,
        analysis_results
        ++ [(new_analysis_id tool analysis_results, mk_analysis source_path browser items)])
  /\ find_analysis (new_analysis_id tool analysis_results)
       (snd (store_results tool source_path browser items analysis_results))
     = Some (mk_analysis source_path browser items)
  /\ (forall id a, find_analysis id analysis_results = Some a ->
        find_analysis id (snd (store_results tool source_path browser items analysis_results))
        = Some a)
  /\ (forall float_repr,
        snd (store_and_summarize float_repr tool source_path browser items analysis_results)
        = snd (store_results tool source_path browser items analysis_results)).
Proof.
  intros Hr. pose proof (new_analysis_id_fresh tool _ (reachable_numbered _ Hr)) as Hfresh.
  assert (Hs : store_results tool source_path browser items analysis_results
               = (new_analysis_id tool analysis_results,
                  analysis_results
                  ++ [(new_analysis_id tool analysis_results,
                       mk_analysis source_path browser items)])).
  { unfold store_results. rewrite store_set_absent by exact Hfresh. reflexivity. }
  split; [ exact Hfresh | split; [ exact Hs | ] ]. rewrite Hs. cbn [snd].
  split; [ apply find_analysis_last, Hfresh | split ].
  - intros id a. apply find_analysis_app.
  - intros float_repr. unfold store_and_summarize. rewrite Hs. reflexivity.
Qed.

Lemma storing_never_overwrites_witness :
  reachable session_store
  /\ store_results analyze_chrome_profile_tool "Default" "Chrome" scenario_A session_store
     = ("profile_2",
        session_store ++ [("profile_2", mk_analysis "Default" "Chrome" scenario_A)]).
Proof.
  assert (H : reachable session_store)
    by exact (reachable_stored analyze_browser_history_tool "History" "Chrome"
                session_records [] reachable_empty).
  split; [ exact H | ].
  exact (proj1 (proj2 (storing_never_overwrites session_store analyze_chrome_profile_tool
                         "Default" "Chrome" scenario_A H))).
Defined.

Lemma string_append_assoc (a b c : string) : ((a ++ b) ++ c = a ++ b ++ c)%string.
Proof.
  induction a as [ | x a IH ]; [ reflexivity | ]. simpl. rewrite IH. reflexivity.
Qed.

Lemma startswith_app (a b : string) : startswith a (a ++ b) = true.
Proof.
  induction a as [ | c a IH ]; [ destruct b; reflexivity | ].
  simpl. rewrite Ascii.eqb_refl. exact IH.
Qed.

Lemma read_resource_of_id (id : string) (a : analysis) (analysis_results : store) :
  no_slash id = true -> find_analysis id analysis_results = Some a ->
  forall middle,
    handle_read_resource (resource_prefix ++ middle ++ id) analysis_results
    = match find_analysis
              (last_segment middle EmptyString ++ id) analysis_results with
      | Some a' => Ok a'
      | None => Raise ValueError
      end.
Proof.
  intros Hn Hf middle. unfold handle_read_resource. rewrite startswith_app.
  rewrite !last_segment_app.
  change (last_segment resource_prefix EmptyString) with EmptyString.
  rewrite (last_segment_no_slash id _ Hn). reflexivity.
Qed.

(** X12.  In a store the tools have built, every resource that
    [handle_list_resources] lists is read back by [handle_read_resource]: the
    URI listed for a stored id gives the analysis stored under it, and so
    does any URI of the scheme that ends in "/" and the id; an analysis is
    returned only for a URI of the scheme whose last segment is a stored id. *)
Theorem listed_resources_are_readable (analysis_results : store) :
  reachable analysis_results ->
  (forall r, In r (handle_list_resources analysis_results) ->
     exists id a,
       In (id, a) analysis_results
       /\ uri r = (resource_prefix ++ id)%string
       /\ handle_read_resource (uri r) analysis_results = Ok a)
  /\ (forall id a middle,
        In (id, a) analysis_results ->
        handle_read_resource (resource_prefix ++ middle ++ "/" ++ id) analysis_results = Ok a)
  /\ (forall uri_str a,
        handle_read_resource uri_str analysis_results = Ok a ->
        startswith resource_prefix uri_str = true
        /\ find_analysis (last_segment uri_str EmptyString) analysis_results = Some a).
Proof.
  intros Hr. pose proof (reachable_numbered _ Hr) as Hn.
  assert (Hid : forall id a, In (id, a) analysis_results ->
                  no_slash id = true /\ find_analysis id analysis_results = Some a).
  { intros id a Hin.
    split; [ | apply (find_analysis_numbered _ 1 id a); [ lia | exact Hn | exact Hin ] ].
    destruct (numbered_from_In _ _ _ _ Hn Hin) as [tool [j [Hj ->]]].
    apply no_slash_analysis_id. lia. }
  split; [ | split ].
  - intros r Hin. unfold handle_list_resources in Hin. apply in_map_iff in Hin.
    destruct Hin as [[id a] [<- Hin]]. exists id, a.
    destruct (Hid _ _ Hin) as [Hns Hf].
    split; [ exact Hin | split; [ reflexivity | ] ]. cbn [uri fst].
    pose proof (read_resource_of_id id a analysis_results Hns Hf EmptyString) as H.
    cbn [append last_segment] in H. rewrite Hf in H. exact H.
  - intros id a middle Hin. destruct (Hid _ _ Hin) as [Hns Hf].
    pose proof (read_resource_of_id id a analysis_results Hns Hf (middle ++ "/")) as H.
    rewrite last_segment_app in H. cbn [last_segment Ascii.eqb Bool.eqb append] in H.
    rewrite Hf, string_append_assoc in H. exact H.
  - intros uri_str a. unfold handle_read_resource.
    destruct (startswith resource_prefix uri_str); [ | discriminate ].
    destruct (find_analysis (last_segment uri_str EmptyString) analysis_results);
      [ | discriminate ].
    intros H. injection H as <-. split; reflexivity.
Qed.

Lemma listed_resources_are_readable_witness :
  handle_list_resources session_store
  = [mk_resource "hindsight://analysis/history_1" "Analysis history_1"
       "Browser forensics analysis of History"]
  /\ handle_read_resource "hindsight://analysis/history_1" session_store
     = Ok (mk_analysis "History" "Chrome" session_records).
Proof.
  split; [ reflexivity | ].
  assert (H : reachable session_store)
    by exact (reachable_stored analyze_browser_history_tool "History" "Chrome"
                session_records [] reachable_empty).
  exact (proj1 (proj2 (listed_resources_are_readable session_store H))
           "history_1" (mk_analysis "History" "Chrome" session_records) EmptyString
           (or_introl eq_refl)).
Defined.

(** ** Letter case and the size of a relevance *)

Lemma lower_char_idempotent (c : ascii) : lower_char (lower_char c) = lower_char c.
Proof.
  destruct c as [[ | ] [ | ] [ | ] [ | ] [ | ] [ | ] [ | ] [ | ]]; vm_compute; reflexivity.
Qed.

Lemma lower_idempotent (s : string) : lower (lower s) = lower s.
Proof.
  induction s as [ | c s IH ]; [ reflexivity | ].
  simpl. rewrite lower_char_idempotent, IH. reflexivity.
Qed.

Lemma nonempty_lower (s : string) : nonempty (lower s) = nonempty s.
Proof.
  destruct s; reflexivity.
Qed.

Lemma category_filter_lower (artifact : option string) (item : dict) :
  category_filter (option_map lower artifact) item = category_filter artifact item.
Proof.
  destruct artifact as [wanted | ]; [ | reflexivity ].
  simpl. rewrite nonempty_lower, lower_idempotent. reflexivity.
Qed.

Lemma collect_matches_lower_artifact
    (parser_parse : string -> result parsed) (float_repr : spec_float -> string)
    (start_bound end_bound : option date) (artifact : option string) (term : string)
    (entries : list pyval) :
  collect_matches parser_parse float_repr start_bound end_bound (option_map lower artifact)
    term entries
  = collect_matches parser_parse float_repr start_bound end_bound artifact term entries.
Proof.
  induction entries as [ | v entries IH ]; [ reflexivity | ].
  destruct v; simpl; try exact IH.
  rewrite category_filter_lower, IH. reflexivity.
Qed.

(** X13.  A search does not depend on the letter case of its term or of
    its artifact type: lower-casing either of them changes nothing in the
    answer. *)
Theorem search_ignores_letter_case
    (parser_parse : string -> result parsed) (float_repr : spec_float -> string)
    (fromisoformat : string -> option date)
    (id : string) (term artifact : option string) (range : option date_range_arg)
    (analysis_results : store) :
  search_analysis_results parser_parse float_repr fromisoformat
    (mk_search_arguments id (option_map lower term) (option_map lower artifact) range)
    analysis_results
  = search_analysis_results parser_parse float_repr fromisoformat
      (mk_search_arguments id term artifact range) analysis_results.
Proof.
  unfold search_analysis_results, ranked_matches, lowered_term.
  cbn [analysis_id search_term artifact_type date_range].
  assert (Ht : lower match option_map lower term with Some t => t | None => EmptyString end
               = lower match term with Some t => t | None => EmptyString end)
    by (destruct term; simpl; [ apply lower_idempotent | reflexivity ]).
  rewrite Ht.
  destruct (find_analysis id analysis_results) as [a | ]; [ | reflexivity ].
  destruct (parse_date_range fromisoformat range) as [[start_bound end_bound] | e];
    [ | reflexivity ].
  rewrite collect_matches_lower_artifact. reflexivity.
Qed.

Lemma startswith_length (sub text : string) :
  startswith sub text = true -> (String.length sub <= String.length text)%nat.
Proof.
  revert text. induction sub as [ | a sub IH ]; intros text H; [ simpl; lia | ].
  destruct text as [ | b text ]; [ discriminate | ].
  simpl in H. apply andb_true_iff in H. destruct H as [_ H].
  apply IH in H. simpl. lia.
Qed.

Lemma startswith_drop_length (sub text : string) (p : nat) :
  sub <> EmptyString -> startswith sub (drop p text) = true ->
  (p + String.length sub <= String.length text)%nat.
Proof.
  intros Hne. revert text. induction p as [ | p IH ]; intros text H.
  - apply startswith_length in H. simpl in *. lia.
  - destruct text as [ | c text ].
    + simpl in H. destruct sub; [ contradiction | discriminate ].
    + simpl in H. apply IH in H. simpl. lia.
Qed.

Lemma apart_positions_fit (n len : nat) (positions : list nat) :
  StronglySorted (fun p q => (p + n <= q)%nat) positions ->
  Forall (fun p => (p + n <= len)%nat) positions ->
  forall lo, Forall (fun p => (lo <= p)%nat) positions -> positions <> [] ->
    (lo + List.length positions * n <= len)%nat.
Proof.
  induction 1 as [ | p rest Hrest IH Hgap ]; intros Hfit lo Hlo Hne; [ contradiction | ].
  inversion Hfit as [ | ? ? Hp Hfit' ]; subst. inversion Hlo as [ | ? ? Hlp _ ]; subst.
  destruct rest as [ | q rest ]; [ simpl; lia | ].
  assert (H := IH Hfit' (p + n)%nat Hgap ltac:(discriminate)).
  simpl List.length in *. lia.
Qed.

(** X14.  The occurrences a relevance counts fit in the text of the record:
    with a non-empty term, the relevance of a match times the length of the
    lower-cased term is at most the length of the record's JSON text. *)
Theorem relevance_fits_the_text
    (parser_parse : string -> result parsed) (float_repr : spec_float -> string)
    (start_bound end_bound : option date) (artifact : option string) (term : string)
    (entries : list pyval) (matches : list match_entry) :
  term <> EmptyString ->
  ranked_matches parser_parse float_repr start_bound end_bound artifact term entries
  = Ok matches ->
  Forall (fun m => (m_relevance m * String.length term
                    <= String.length (item_text float_repr (m_item m)))%nat) matches.
Proof.
  intros Hne H. apply ranked_matches_Ok in H. destruct H as [collected [Hc ->]].
  destruct (collect_matches_Ok _ _ _ _ _ _ _ _ Hc) as [Hshape _].
  eapply Permutation_Forall; [ symmetry; apply sort_desc_perm | ].
  rewrite Hshape. apply Forall_forall. intros m Hm.
  apply in_map_iff in Hm. destruct Hm as [item [<- _]].
  cbn [m_relevance m_item make_match]. unfold relevance.
  rewrite (nonempty_true _ Hne).
  destruct (str_count_counts term Hne (item_text float_repr item))
    as [positions [-> [Hat [Hgap _]]]].
  destruct positions as [ | p rest ]; [ simpl; lia | ].
  apply (apart_positions_fit _ _ (p :: rest) Hgap) with (lo := 0%nat).
  - eapply Forall_impl; [ | exact Hat ]. intros q Hq.
    apply startswith_drop_length; assumption.
  - apply Forall_forall. intros; lia.
  - discriminate.
Qed.

Lemma relevance_fits_the_text_witness :
  Forall (fun m => (m_relevance m * String.length "alpha"
                    <= String.length (item_text no_float_repr (m_item m)))%nat)
    [make_match no_float_repr "alpha" alpha_twice; make_match no_float_repr "alpha" alpha_once].
Proof.
  apply (relevance_fits_the_text no_parser no_float_repr None None None "alpha"
           session_records).
  - discriminate.
  - vm_compute. reflexivity.
Defined.
